(** * BMW VIN decoder connector: a shallow embedding of [connector.py]

    The connector asks a remote vehicle API to decode VINs and to list
    recalls, projects the JSON answers into flat records and hands them to
    the sync driver.  The development below embeds

    - the JSON values that [response.json()] hands back, together with the
      Python built-ins the connector applies to them (truth value, [in],
      [int], subscripting, iteration, dict construction);
    - the network and the error log as an explicit world that every
      effectful call threads through, with raised exceptions as an error
      outcome;
    - [BMWSeriesEnum], [BMWVehicleInfo], [BMWVinDecoder] and
      [BMWVehicleSource.fetch_records].

    Conventions.  Python text is modelled by [string]; a character is a
    code point below 256.  JSON numbers are integers (floating-point JSON
    numbers are outside the model).  [int] on text follows CPython's
    decimal parser for such strings: white space is the ASCII white
    space and, in text that is not pure ASCII, the code points 133 and
    160; a literal of more than 4300 digits is refused, as by the
    interpreter's default limit.  The [requests] library is the one that
    has its own [JSONDecodeError] (2.27 and later). *)

From Stdlib Require Import ZArith List String Ascii Bool Lia DecimalString.
Import ListNotations.

Set Warnings "-register-all".

Local Open Scope list_scope.
Local Open Scope string_scope.

(* ================================================================= *)
(** ** Values and exceptions *)

(** What [response.json()] returns. An object is kept as the list of its
    members; looking a key up takes the first member with that key. *)
Inductive json : Type :=
| JNull
| JBool (b : bool)
| JNum (n : Z)
| JStr (s : string)
| JArr (items : list json)
| JObj (members : list (string * json)).

(** The exception classes the connector can meet.  [JSONDecodeError] is
    the class [response.json()] raises, [requests.exceptions.JSONDecodeError]:
    a subclass of [json.JSONDecodeError] and of [RequestException]. *)
Inductive exn_class : Type :=
| RequestException
| JSONDecodeError
| KeyError
| TypeError
| ValueError
| IndexError
| AttributeError.

(** A raised exception: its class and [str(e)].  For exceptions raised by
    the connector itself the message is the one in the source; for those
    raised by a built-in it is a short description. *)
Record exn : Type := Raise { exn_cls : exn_class; exn_msg : string }.

(** [isinstance(e, requests.exceptions.RequestException)]. *)
Definition is_request_exception (e : exn) : bool :=
  match exn_cls e with
  | RequestException | JSONDecodeError => true
  | _ => false
  end.

(** [isinstance(e, json.JSONDecodeError)]. *)
Definition is_json_decode_error (e : exn) : bool :=
  match exn_cls e with
  | JSONDecodeError => true
  | _ => false
  end.

Inductive outcome (A : Type) : Type :=
| Ok (a : A)
| Err (e : exn).
Arguments Ok {A} a.
Arguments Err {A} e.

(* ================================================================= *)
(** ** Python built-ins on JSON values *)

Module Py.

(** [bool(v)]: the truth value used by [if v]. *)
Definition truthy (v : json) : bool :=
  match v with
  | JNull => false
  | JBool b => b
  | JNum n => negb (n =? 0)%Z
  | JStr s => match s with EmptyString => false | String _ _ => true end
  | JArr l => match l with [] => false | _ => true end
  | JObj m => match m with [] => false | _ => true end
  end.

(** [v == s] for a text literal [s]. *)
Definition eq_str (v : json) (s : string) : bool :=
  match v with
  | JStr t => t =? s
  | _ => false
  end.

(** Lists and dicts cannot be dict keys. *)
Definition hashable (v : json) : bool :=
  match v with
  | JArr _ | JObj _ => false
  | _ => true
  end.

Definition Z_of_bool (b : bool) : Z := if b then 1%Z else 0%Z.

(** Equality of two hashable values as dict keys; [True == 1] and
    [False == 0] hold in Python. *)
Definition key_eq (a b : json) : bool :=
  match a, b with
  | JNull, JNull => true
  | JBool x, JBool y => Bool.eqb x y
  | JBool x, JNum n | JNum n, JBool x => (Z_of_bool x =? n)%Z
  | JNum n, JNum m => (n =? m)%Z
  | JStr s, JStr t => s =? t
  | _, _ => false
  end.

(** Membership of a key in the members of a JSON object. *)
Fixpoint obj_lookup (m : list (string * json)) (k : string) : option json :=
  match m with
  | [] => None
  | (k', v) :: r => if k' =? k then Some v else obj_lookup r k
  end.

(** [v[k]] for a text key [k]. *)
Definition getitem (v : json) (k : string) : outcome json :=
  match v with
  | JObj m =>
      match obj_lookup m k with
      | Some x => Ok x
      | None => Err (Raise KeyError k)
      end
  | JArr _ | JStr _ => Err (Raise TypeError "indices must be integers")
  | _ => Err (Raise TypeError "object is not subscriptable")
  end.

(** [v.get(k, d)]: only dicts have the method. *)
Definition get_method (v : json) (k : string) (d : json) : outcome json :=
  match v with
  | JObj m => Ok (match obj_lookup m k with Some x => x | None => d end)
  | _ => Err (Raise AttributeError "object has no attribute 'get'")
  end.

Fixpoint chars (s : string) : list json :=
  match s with
  | EmptyString => []
  | String c r => JStr (String c EmptyString) :: chars r
  end.

(** The items a [for] loop (or a comprehension) draws from [v]. *)
Definition iter (v : json) : outcome (list json) :=
  match v with
  | JArr l => Ok l
  | JObj m => Ok (map (fun kv => JStr (fst kv)) m)
  | JStr s => Ok (chars s)
  | _ => Err (Raise TypeError "object is not iterable")
  end.

(** [needle in hay] on text: [needle] occurs as a substring of [hay]. *)
Fixpoint str_in (needle hay : string) : bool :=
  String.prefix needle hay
  || match hay with
     | EmptyString => false
     | String _ r => str_in needle r
     end.

(** [s in v] for a text literal [s]. *)
Definition contains (v : json) (s : string) : outcome bool :=
  match v with
  | JStr t => Ok (str_in s t)
  | JArr l => Ok (existsb (fun x => eq_str x s) l)
  | JObj m => Ok (existsb (fun kv => fst kv =? s) m)
  | _ => Err (Raise TypeError "argument is not iterable")
  end.

(** *** [int] *)

(** White space for [int]: tab to carriage return and the blank; the
    code points 133 (next line) and 160 (no-break space) are turned into
    blanks before the literal is read. *)
Definition is_space (c : ascii) : bool :=
  let n := nat_of_ascii c in
  ((9 <=? n) && (n <=? 13) || (n =? 32) || (n =? 133) || (n =? 160))%nat.

Definition digit_val (c : ascii) : option Z :=
  let n := nat_of_ascii c in
  if ((48 <=? n) && (n <=? 57))%nat then Some (Z.of_nat (n - 48)) else None.

Fixpoint skip_space (s : string) : string :=
  match s with
  | String c r => if is_space c then skip_space r else s
  | EmptyString => s
  end.

Fixpoint all_space (s : string) : bool :=
  match s with
  | String c r => is_space c && all_space r
  | EmptyString => true
  end.

(** The rest of a decimal literal after a digit has been read: digits,
    single underscores between digits, then only white space. *)
Fixpoint scan_digits (acc : Z) (s : string) : option Z :=
  match s with
  | EmptyString => Some acc
  | String c r =>
      match digit_val c with
      | Some d => scan_digits (10 * acc + d) r
      | None =>
          if Ascii.eqb c "_" then
            match r with
            | String c' r' =>
                match digit_val c' with
                | Some d => scan_digits (10 * acc + d) r'
                | None => None
                end
            | EmptyString => None
            end
          else if all_space s then Some acc else None
      end
  end.

Definition unsigned_literal (s : string) : option Z :=
  match s with
  | String c r =>
      match digit_val c with
      | Some d => scan_digits d r
      | None => None
      end
  | EmptyString => None
  end.

(** The number of decimal digits in [s]. *)
Fixpoint count_digits (s : string) : N :=
  match s with
  | EmptyString => 0%N
  | String c r =>
      match digit_val c with
      | Some _ => N.succ (count_digits r)
      | None => count_digits r
      end
  end.

(** The default of [sys.get_int_max_str_digits()]. *)
Definition int_max_str_digits : N := 4300%N.

(** [int(s)] for text [s], base 10: [None] stands for the [ValueError]
    of a malformed literal or of one with too many digits. *)
Definition int_of_str (s : string) : option Z :=
  if (int_max_str_digits <? count_digits s)%N then None
  else
    match skip_space s with
    | String "+" r => unsigned_literal r
    | String "-" r => option_map Z.opp (unsigned_literal r)
    | t => unsigned_literal t
    end.

(** [int(v)]. *)
Definition int (v : json) : outcome Z :=
  match v with
  | JNum n => Ok n
  | JBool b => Ok (Z_of_bool b)
  | JStr s =>
      match int_of_str s with
      | Some n => Ok n
      | None => Err (Raise ValueError "text is not an integer literal")
      end
  | _ => Err (Raise TypeError "int() argument must be a string or a number")
  end.

(** *** Dicts built by the program

    A dict whose keys are JSON scalars, in insertion order. *)
Definition dict : Type := list (json * json).

(** [d[k] = v]: overwrite the entry of an equal key, else append. *)
Fixpoint dict_set (d : dict) (k v : json) : dict :=
  match d with
  | [] => [(k, v)]
  | (k', v') :: r => if key_eq k' k then (k', v) :: r else (k', v') :: dict_set r k v
  end.

Fixpoint dict_find (d : dict) (k : json) : option json :=
  match d with
  | [] => None
  | (k', v) :: r => if key_eq k' k then Some v else dict_find r k
  end.

(** [d.get(k, default)] for a text key. *)
Definition dict_get (d : dict) (k : string) (default : json) : json :=
  match dict_find d (JStr k) with
  | Some v => v
  | None => default
  end.

(** [s[i]] on text. *)
Definition str_index (s : string) (i : nat) : outcome string :=
  match String.get i s with
  | Some c => Ok (String c EmptyString)
  | None => Err (Raise IndexError "string index out of range")
  end.

End Py.


(* ================================================================= *)
(** ** The world: clock, network and log *)

(** What the remote service answers to one GET. *)
Record response : Type := mkResponse {
  status_code : Z;
  body : option json  (* [None] when the text of the answer is not JSON *)
}.

Inductive reply : Type :=
| NoReply (detail : string)  (* no connection, time-out, ... *)
| Reply (r : response).

(** [now_isoformat] is what [datetime.now().isoformat()] would return at
    this moment; [requests_made] lists the URLs requested so far and
    [log] the error lines written so far, oldest first. *)
Record World : Type := mkWorld {
  now_isoformat : string;
  requests_made : list string;
  log : list string
}.

(** An effectful computation: it reads and extends the world and either
    returns or raises. *)
Definition M (A : Type) : Type := World -> outcome A * World.

Definition ret {A} (a : A) : M A := fun w => (Ok a, w).

Definition raise {A} (e : exn) : M A := fun w => (Err e, w).

Definition bind {A B} (m : M A) (k : A -> M B) : M B :=
  fun w =>
    match m w with
    | (Ok a, w1) => k a w1
    | (Err e, w1) => (Err e, w1)
    end.

Definition lift {A} (o : outcome A) : M A := fun w => (o, w).

(** [try: body / except Exception as e: handler(e)]. *)
Definition try_except {A} (body : M A) (handler : exn -> M A) : M A :=
  fun w =>
    match body w with
    | (Ok a, w1) => (Ok a, w1)
    | (Err e, w1) => handler e w1
    end.

Declare Scope monad_scope.
Delimit Scope monad_scope with monad.
Notation "x <- m ;; k" := (bind m (fun x => k))
  (at level 61, m at next level, right associativity) : monad_scope.
Notation "m ;;; k" := (bind m (fun _ => k))
  (at level 61, right associativity) : monad_scope.
Local Open Scope monad_scope.

(** The world once [line] has been logged, and once [url] has been
    requested. *)
Definition after_log (line : string) (w : World) : World :=
  mkWorld (now_isoformat w) (requests_made w) (log w ++ [line])%list.

Definition after_request (url : string) (w : World) : World :=
  mkWorld (now_isoformat w) (requests_made w ++ [url])%list (log w).

(** [logger.error(line)]. *)
Definition logger_error (line : string) : M unit :=
  fun w => (Ok tt, after_log line w).

(** Pure sequencing of outcomes. *)
Definition obind {A B} (o : outcome A) (k : A -> outcome B) : outcome B :=
  match o with
  | Ok a => k a
  | Err e => Err e
  end.

(* ================================================================= *)
(** ** [BMWSeriesEnum] *)

Inductive BMWSeriesEnum : Type :=
| SERIES_1 | SERIES_2 | SERIES_3 | SERIES_4
| SERIES_5 | SERIES_6 | SERIES_7 | SERIES_8
| SERIES_X | SERIES_M | SERIES_I | UNKNOWN.

(** [series.value]. *)
Definition value (s : BMWSeriesEnum) : string :=
  match s with
  | SERIES_1 => "1" | SERIES_2 => "2" | SERIES_3 => "3" | SERIES_4 => "4"
  | SERIES_5 => "5" | SERIES_6 => "6" | SERIES_7 => "7" | SERIES_8 => "8"
  | SERIES_X => "X" | SERIES_M => "M" | SERIES_I => "i"
  | UNKNOWN => "Unknown"
  end.

(** The members in declaration order, as [for series in BMWSeriesEnum]
    visits them. *)
Definition members : list BMWSeriesEnum :=
  [SERIES_1; SERIES_2; SERIES_3; SERIES_4; SERIES_5; SERIES_6; SERIES_7;
   SERIES_8; SERIES_X; SERIES_M; SERIES_I; UNKNOWN].

Definition BMWSeriesEnum_eqb (a b : BMWSeriesEnum) : bool :=
  value a =? value b.

(* ================================================================= *)
(** ** [BMWVehicleInfo] *)

(** A Fivetran record: a dict from column name to value. *)
Definition record : Type := list (string * json).

Record BMWVehicleInfo : Type := mkBMWVehicleInfo {
  vin : string;
  series : BMWSeriesEnum;
  model_year : Z;
  model_name : json;
  body_type : json;
  engine_type : json;
  transmission : json;
  drive_type : json;
  manufacturing_plant : string;
  production_date : json;
  decoded_date : string
}.

Definition to_record (self : BMWVehicleInfo) : record :=
  [ ("vin", JStr (vin self));
    ("series", JStr (value (series self)));
    ("model_year", JNum (model_year self));
    ("model_name", model_name self);
    ("body_type", body_type self);
    ("engine_type", engine_type self);
    ("transmission", transmission self);
    ("drive_type", drive_type self);
    ("manufacturing_plant", JStr (manufacturing_plant self));
    ("production_date", production_date self);
    ("decoded_date", JStr (decoded_date self)) ].

(** Reading a column of a record. *)
Fixpoint column (r : record) (name : string) : option json :=
  match r with
  | [] => None
  | (k, v) :: rest => if k =? name then Some v else column rest name
  end.

(* ================================================================= *)
(** ** The connector *)

Section Connector.

(** The remote service: its answer to a GET of a URL, given the URLs
    requested before. *)
Variable server : list string -> string -> reply.

(** The world in which the module body ran, when the class statement of
    [BMWVehicleInfo] evaluated the default of [decoded_date]. *)
Variable loaded : World.

(** *** The [requests] calls *)

(** [requests.get(url)]. *)
Definition requests_get (url : string) : M response :=
  fun w =>
    match server (requests_made w) url with
    | NoReply detail => (Err (Raise RequestException detail), after_request url w)
    | Reply r => (Ok r, after_request url w)
    end.

(** [response.raise_for_status()]. *)
Definition raise_for_status (r : response) : outcome unit :=
  if ((400 <=? status_code r) && (status_code r <? 600))%Z
  then Err (Raise RequestException "HTTP error status")
  else Ok tt.

(** [response.json()].  What it raises on a body that is not JSON is the
    library's [JSONDecodeError], which is a [RequestException] too. *)
Definition response_json (r : response) : outcome json :=
  match body r with
  | Some j => Ok j
  | None => Err (Raise JSONDecodeError "response body is not JSON")
  end.

(** *** Dataclass [BMWVehicleInfo]: the generated constructor *)

(** The class-level default [datetime.now().isoformat()] of
    [decoded_date], evaluated once by the class statement. *)
Definition decoded_date_default : string := now_isoformat loaded.

(** [BMWVehicleInfo(...)]: the two trailing fields may be omitted. *)
Definition BMWVehicleInfo_init
    (vin : string) (series : BMWSeriesEnum) (model_year : Z)
    (model_name body_type engine_type transmission drive_type : json)
    (manufacturing_plant : string)
    (production_date : option json) (decoded_date : option string)
  : BMWVehicleInfo :=
  mkBMWVehicleInfo vin series model_year model_name body_type engine_type
    transmission drive_type manufacturing_plant
    (match production_date with Some d => d | None => JNull end)
    (match decoded_date with Some d => d | None => decoded_date_default end).

(** *** [BMWVinDecoder] *)

Definition base_url : string := "https://vpic.nhtsa.dot.gov/api/vehicles".

Definition decode_url (vin : string) : string :=
  base_url ++ "/decodevin/" ++ vin ++ "?format=json".

Definition recalls_url (vin : string) : string :=
  base_url ++ "/recalls/vin/" ++ vin ++ "?format=json".

Definition _plant_codes : list (string * string) :=
  [ ("A", "Greer, SC, USA");
    ("B", "Dingolfing, Germany");
    ("C", "Munich, Germany");
    ("L", "Leipzig, Germany");
    ("N", "Regensburg, Germany");
    ("P", "Munich, Germany");
    ("R", "Spartanburg, SC, USA");
    ("U", "Rosslyn, South Africa");
    ("W", "Born, Netherlands") ].

(** [table.get(key, default)] on a dict from text to text. *)
Fixpoint table_get (t : list (string * string)) (key default : string) : string :=
  match t with
  | [] => default
  | (k, v) :: r => if k =? key then v else table_get r key default
  end.

Definition bmw_prefixes : list string := ["WBA"; "WBS"; "WBY"; "4US"].

(** [vin[:3]]. *)
Definition prefix3 (vin : string) : string := String.substring 0 3 vin.

Definition _validate_bmw_vin (vin : string) : outcome bool :=
  if negb (String.length vin =? 17)%nat then
    Err (Raise ValueError "VIN must be 17 characters long")
  else if negb (existsb (String.eqb (prefix3 vin)) bmw_prefixes) then
    Err (Raise ValueError "Not a valid BMW VIN prefix")
  else Ok true.

(** The loop of [_determine_bmw_series] over the members still to try. *)
Fixpoint first_series (todo : list BMWSeriesEnum) (model_name : json)
  : outcome BMWSeriesEnum :=
  match todo with
  | [] => Ok UNKNOWN
  | s :: rest =>
      obind (Py.contains model_name (value s)) (fun found =>
        if found then Ok s else first_series rest model_name)
  end.

Definition _determine_bmw_series (model_name : json) : outcome BMWSeriesEnum :=
  first_series members model_name.

(** One item of the comprehension
    [{item['Variable']: item['Value'] for item in ... if item['Value'] and item['Value'] != '0'}]. *)
Definition project_item (acc : Py.dict) (item : json) : outcome Py.dict :=
  obind (Py.getitem item "Value") (fun v =>
    if Py.truthy v && negb (Py.eq_str v "0") then
      obind (Py.getitem item "Variable") (fun k =>
        if Py.hashable k then Ok (Py.dict_set acc k v)
        else Err (Raise TypeError "unhashable type"))
    else Ok acc).

Fixpoint project_items (items : list json) (acc : Py.dict) : outcome Py.dict :=
  match items with
  | [] => Ok acc
  | item :: rest => obind (project_item acc item) (project_items rest)
  end.

(** [{... for item in data['Results'] if ...}]. *)
Definition project_results (data : json) : outcome Py.dict :=
  obind (Py.getitem data "Results") (fun rs =>
    obind (Py.iter rs) (fun items => project_items items [])).

(** The body of [decode_bmw_vin] after [data = response.json()]. *)
Definition vehicle_of_data (vin : string) (data : json) : outcome BMWVehicleInfo :=
  obind (project_results data) (fun results =>
    let model_name := Py.dict_get results "Model" (JStr "Unknown") in
    obind (_determine_bmw_series model_name) (fun series =>
      obind (Py.int (Py.dict_get results "ModelYear" (JNum 0))) (fun model_year =>
        let body_type := Py.dict_get results "BodyClass" (JStr "Unknown") in
        let engine_type := Py.dict_get results "EngineConfiguration" (JStr "Unknown") in
        let transmission := Py.dict_get results "TransmissionStyle" (JStr "Unknown") in
        let drive_type := Py.dict_get results "DriveType" (JStr "Unknown") in
        obind (Py.str_index vin 11) (fun c =>
          Ok (BMWVehicleInfo_init vin series model_year model_name
                body_type engine_type transmission drive_type
                (table_get _plant_codes c "Unknown")
                (Some (Py.dict_get results "DateProduced" JNull))
                None))))).

(** The three [except] clauses of [decode_bmw_vin], tried in the order
    of the source: each logs and re-raises; they differ in the text.
    The error of [response.json()] is a [RequestException], so the first
    clause takes it. *)
Definition decode_log_text (e : exn) : string :=
  if is_request_exception e then "API request failed: " ++ exn_msg e
  else if is_json_decode_error e then "JSON parsing error: " ++ exn_msg e
  else "Unexpected error: " ++ exn_msg e.

Definition log_and_reraise {A} (text : exn -> string) (e : exn) : M A :=
  logger_error (text e) ;;; raise e.

(** [decode_bmw_vin] from the request on (the call of the validator is
    commented out in the source). *)
Definition decode_steps (vin : string) : M BMWVehicleInfo :=
  response <- requests_get (decode_url vin) ;;
  lift (raise_for_status response) ;;;
  data <- lift (response_json response) ;;
  lift (vehicle_of_data vin data).

Definition decode_bmw_vin (vin : string) : M BMWVehicleInfo :=
  try_except (decode_steps vin) (log_and_reraise decode_log_text).

(** [decode_bmw_vin] with the validator call on its first line enabled:
    the source keeps that call as a comment. *)
Definition decode_bmw_vin_validated (vin : string) : M BMWVehicleInfo :=
  try_except
    (lift (_validate_bmw_vin vin) ;;; decode_steps vin)
    (log_and_reraise decode_log_text).

Definition get_bmw_recalls (vin : string) : M json :=
  try_except
    (response <- requests_get (recalls_url vin) ;;
     lift (raise_for_status response) ;;;
     data <- lift (response_json response) ;;
     lift (Py.get_method data "Results" (JArr [])))
    (log_and_reraise (fun e => "Error fetching recalls: " ++ exn_msg e)).

(** *** [BMWVehicleSource.fetch_records] *)

(** The dict built for one raw recall entry. *)
Definition recall_record (vin : string) (recall : json) : outcome record :=
  obind (Py.get_method recall "CampaignNumber" (JStr "Unknown")) (fun campaign_number =>
  obind (Py.get_method recall "Component" (JStr "Unknown")) (fun component =>
  obind (Py.get_method recall "Summary" (JStr EmptyString)) (fun summary =>
  obind (Py.get_method recall "Consequence" (JStr EmptyString)) (fun consequence =>
  obind (Py.get_method recall "Remedy" (JStr EmptyString)) (fun remedy =>
  obind (Py.get_method recall "ReportReceivedDate" (JStr EmptyString)) (fun recall_date =>
    Ok [ ("vin", JStr vin);
         ("campaign_number", campaign_number);
         ("component", component);
         ("summary", summary);
         ("consequence", consequence);
         ("remedy", remedy);
         ("recall_date", recall_date) ])))))).

(** [for recall in recalls: records.append(record)]: [records] is
    mutated in place, so what was appended before a failure stays. *)
Fixpoint append_recalls (vin : string) (recalls : list json) (records : list record)
  : list record * outcome unit :=
  match recalls with
  | [] => (records, Ok tt)
  | recall :: rest =>
      match recall_record vin recall with
      | Ok r => append_recalls vin rest (records ++ [r])%list
      | Err e => (records, Err e)
      end
  end.

(** The body of the [try] in the recalls loop. *)
Definition recalls_try (vin : string) (records : list record)
  : World -> (list record * outcome unit) * World :=
  fun w =>
    match get_bmw_recalls vin w with
    | (Ok recalls, w1) =>
        match Py.iter recalls with
        | Ok items => (append_recalls vin items records, w1)
        | Err e => ((records, Err e), w1)
        end
    | (Err e, w1) => ((records, Err e), w1)
    end.

Fixpoint vehicles_loop (vins : list string) (records : list record)
  : M (list record) :=
  match vins with
  | [] => ret records
  | vin :: rest =>
      records1 <-
        try_except
          (vehicle_info <- decode_bmw_vin vin ;;
           ret (records ++ [to_record vehicle_info])%list)
          (fun e =>
             logger_error ("Error processing VIN " ++ vin ++ ": " ++ exn_msg e) ;;;
             ret records) ;;
      vehicles_loop rest records1
  end.

Fixpoint recalls_loop (vins : list string) (records : list record)
  : M (list record) :=
  match vins with
  | [] => ret records
  | vin :: rest =>
      fun w =>
        match recalls_try vin records w with
        | ((records1, Ok _), w1) => recalls_loop rest records1 w1
        | ((records1, Err e), w1) =>
            (logger_error ("Error fetching recalls for VIN " ++ vin ++ ": " ++ exn_msg e) ;;;
             recalls_loop rest records1) w1
        end
  end.

(** [fetch_records(table_name, last_state)] of a source configured with
    [vins]; [last_state] is not read. *)
Definition fetch_records (vins : list string) (table_name : string)
  : M (list record) :=
  if table_name =? "bmw_vehicles" then vehicles_loop vins []
  else if table_name =? "bmw_recalls" then recalls_loop vins []
  else ret [].

End Connector.


(* ================================================================= *)
(** ** Keys, schema and the sync driver *)

(** [BMWVehicleSource.get_primary_keys()]. *)
Definition get_primary_keys : list (string * list string) :=
  [ ("bmw_vehicles", ["vin"]);
    ("bmw_recalls", ["vin"; "campaign_number"]) ].

(** [BMWVinDecoderSchema.get_tables()]. *)
Definition get_tables : list string := ["bmw_vehicles"].

(** [BMWVinDecoderSchema.get_columns(table_name)]: column name and
    declared type, in the order of the source. *)
Definition get_columns (table_name : string) : list (string * string) :=
  if table_name =? "bmw_vehicles" then
    [ ("vin", "STRING");
      ("series", "STRING");
      ("model_year", "INT");
      ("model_name", "STRING");
      ("body_type", "STRING");
      ("engine_type", "STRING");
      ("transmission", "STRING");
      ("drive_type", "STRING");
      ("manufacturing_plant", "STRING");
      ("production_date", "STRING");
      ("decoded_date", "STRING") ]
  else if table_name =? "bmw_recalls" then
    [ ("vin", "STRING");
      ("campaign_number", "STRING");
      ("component", "STRING");
      ("summary", "STRING");
      ("consequence", "STRING");
      ("remedy", "STRING");
      ("recall_date", "STRING") ]
  else [].

(** The connector configuration: a dict that may hold a list of VINs
    under ['vins']. *)
Record Config : Type := mkConfig { vins_entry : option (list string) }.

(** [config.get('vins', default)]. *)
Definition config_vins (config : Config) (default : list string) : list string :=
  match vins_entry config with
  | Some l => l
  | None => default
  end.

(** [l[0]] on a list. *)
Definition first_item (l : list string) : outcome string :=
  match l with
  | x :: _ => Ok x
  | [] => Err (Raise IndexError "list index out of range")
  end.

(** What [update] yields to the orchestrator. *)
Inductive operation : Type :=
| Upsert (table : string) (data : record)
| Checkpoint (state : json).

(** [logger.info(line)]: the line goes to the same log. *)
Definition logger_info (line : string) : M unit :=
  fun w => (Ok tt, after_log line w).

(** [str(n)] for a length. *)
Definition str_of_nat (n : nat) : string :=
  NilEmpty.string_of_uint (Nat.to_uint n).

Section Driver.

Variable server : list string -> string -> reply.
Variable loaded : World.

(** [str(record)], the text Python prints for a dict. *)
Variable repr_record : record -> string.

(** [BMWVinDecoderConnector.test_connection(config)]. *)
Definition test_connection (config : Config) : M bool :=
  try_except
    (test_vin <- lift (first_item (config_vins config ["WBA3A5C51CF256651"])) ;;
     decode_bmw_vin server loaded test_vin ;;;
     ret true)
    (fun e =>
       logger_error ("Connection test failed: " ++ exn_msg e) ;;;
       ret false).

(** [for record in records[:2]: logger.info(...); yield op.upsert(table, record)],
    on the records already sliced. *)
Fixpoint emit_records (table : string) (records : list record)
  : M (list operation) :=
  match records with
  | [] => ret []
  | r :: rest =>
      logger_info ("Record: " ++ repr_record r) ;;;
      ops <- emit_records table rest ;;
      ret (Upsert table r :: ops)
  end.

(** [for table in bmwConnector.schema.get_tables(): ...] for a source
    configured with [vins]. *)
Fixpoint sync_tables (tables : list string) (vins : list string)
  : M (list operation) :=
  match tables with
  | [] => ret []
  | table :: rest =>
      logger_info ("Syncing table: " ++ table) ;;;
      records <- fetch_records server loaded vins table ;;
      logger_info ("Fetched " ++ str_of_nat (List.length records)
                    ++ " records for " ++ table) ;;;
      ops <- emit_records table (firstn 2 records) ;;
      later_ops <- sync_tables rest vins ;;
      ret (ops ++ later_ops)%list
  end.

(** [update(configuration, state)], run to the end: the operations it
    yields, in order.  [configuration] is not read: the VINs are written
    in the function. *)
Definition update (configuration state : json) : M (list operation) :=
  let config :=
    mkConfig (Some ["5UXCW2C09L9C15882"; "WBAHF3C03NWX42344"]) in
  connected <- test_connection config ;;
  if connected then
    logger_info "Connection test successful" ;;;
    ops <- sync_tables get_tables (config_vins config []) ;;
    ret (ops ++ [Checkpoint state])%list
  else
    logger_error "Connection test failed" ;;;
    ret [].

End Driver.
(* ================================================================= *)
(** ** Specification vocabulary *)

(** [needle] occurs in [hay] as a contiguous piece. *)
Definition occurs (needle hay : string) : Prop :=
  exists before after, hay = before ++ needle ++ after.

(** Position of a member in the declaration of [BMWSeriesEnum]. *)
Fixpoint index_of (s : BMWSeriesEnum) (l : list BMWSeriesEnum) : nat :=
  match l with
  | [] => 0
  | x :: r => if BMWSeriesEnum_eqb x s then 0 else S (index_of s r)
  end.

Definition ordinal (s : BMWSeriesEnum) : nat := index_of s members.

(** What the [try] body of [decode_bmw_vin] comes to, as a function of
    the answer of the service. *)
Definition decode_reply (loaded : World) (vin : string) (rp : reply)
  : outcome BMWVehicleInfo :=
  match rp with
  | NoReply detail => Err (Raise RequestException detail)
  | Reply r =>
      obind (raise_for_status r) (fun _ =>
        obind (response_json r) (vehicle_of_data loaded vin))
  end.

(** The same for [get_bmw_recalls]. *)
Definition recalls_reply (rp : reply) : outcome json :=
  match rp with
  | NoReply detail => Err (Raise RequestException detail)
  | Reply r =>
      obind (raise_for_status r) (fun _ =>
        obind (response_json r) (fun data =>
          Py.get_method data "Results" (JArr [])))
  end.

(** In world [w] the service answers a GET of [url] with a success
    status and the JSON document [data]. *)
Definition answers (server : list string -> string -> reply)
    (w : World) (url : string) (data : json) : Prop :=
  exists st,
    server (requests_made w) url = Reply (mkResponse st (Some data)) /\
    raise_for_status (mkResponse st (Some data)) = Ok tt.

(** The condition of the comprehension in [decode_bmw_vin]. *)
Definition kept (v : json) : bool :=
  Py.truthy v && negb (Py.eq_str v "0").

(** A value that is the empty text or the text ["0"]. *)
Definition empty_or_zero (v : json) : Prop :=
  v = JStr EmptyString \/ v = JStr "0".

(** Every pair of [items] whose [Variable] is [name] has an empty or
    ["0"] [Value]. *)
Definition all_discarded (name : string) (items : list json) : Prop :=
  forall item,
    In item items ->
    Py.getitem item "Variable" = Ok (JStr name) ->
    exists v, Py.getitem item "Value" = Ok v /\ empty_or_zero v.

(** Every value stored in a dict passed the filter. *)
Definition values_kept (d : Py.dict) : Prop :=
  Forall (fun kv => kept (snd kv) = true) d.

(** The world of a later moment: the clock has moved on to [t]. *)
Definition later (t : string) (w : World) : World :=
  mkWorld t (requests_made w) (log w).

(** A pair of the shape the decode endpoint documents: an object whose
    [Variable] is text and whose [Value] is text or null. *)
Definition well_formed_pair (item : json) : Prop :=
  exists var val,
    Py.getitem item "Variable" = Ok (JStr var) /\
    Py.getitem item "Value" = Ok val /\
    (val = JNull \/ exists s, val = JStr s).

(** Every value stored in a dict is text. *)
Definition values_text (d : Py.dict) : Prop :=
  Forall (fun kv => exists s, snd kv = JStr s) d.

(** The line [fetch_records] logs when the decode of [vin] raised [e]. *)
Definition skip_line (vin : string) (e : exn) : string :=
  "Error processing VIN " ++ vin ++ ": " ++ exn_msg e.

(** The line it logs when the recalls of [vin] could not be mapped. *)
Definition recall_skip_line (vin : string) (e : exn) : string :=
  "Error fetching recalls for VIN " ++ vin ++ ": " ++ exn_msg e.

(** The value of [key] in a raw recall entry, or the text [default]. *)
Definition field_or (entry : list (string * json)) (key default : string) : json :=
  match Py.obj_lookup entry key with
  | Some v => v
  | None => JStr default
  end.

(** The RecallRecord the specification asks for a raw entry: the VIN and,
    column by column, the raw value or the default of the column. *)
Definition recall_row (vin : string) (entry : list (string * json)) : record :=
  [ ("vin", JStr vin);
    ("campaign_number", field_or entry "CampaignNumber" "Unknown");
    ("component", field_or entry "Component" "Unknown");
    ("summary", field_or entry "Summary" EmptyString);
    ("consequence", field_or entry "Consequence" EmptyString);
    ("remedy", field_or entry "Remedy" EmptyString);
    ("recall_date", field_or entry "ReportReceivedDate" EmptyString) ].

(** The raw key behind each column of a RecallRecord and its default. *)
Definition recall_columns : list (string * (string * string)) :=
  [ ("campaign_number", ("CampaignNumber", "Unknown"));
    ("component", ("Component", "Unknown"));
    ("summary", ("Summary", EmptyString));
    ("consequence", ("Consequence", EmptyString));
    ("remedy", ("Remedy", EmptyString));
    ("recall_date", ("ReportReceivedDate", EmptyString)) ].

(** *** Sample inputs *)

(** A [{Variable, Value}] pair of a decode answer. *)
Definition pair_of (variable value : string) : json :=
  JObj [("Variable", JStr variable); ("Value", JStr value)].

Definition sample_results : list json :=
  [ pair_of "Make" "BMW";
    pair_of "Model" "X3";
    pair_of "ModelYear" "2020";
    pair_of "BodyClass" EmptyString;
    pair_of "DriveType" "0";
    JObj [("Variable", JStr "DateProduced"); ("Value", JNull)] ].

Definition sample_body : json :=
  JObj [("Count", JNum 6); ("Results", JArr sample_results)].

(** A service that answers every request with [sample_body]. *)
Definition sample_server : list string -> string -> reply :=
  fun _ _ => Reply (mkResponse 200 (Some sample_body)).

(** The first VIN of the source's [update]; its character 11 is [C]. *)
Definition sample_vin : string := "5UXCW2C09L9C15882".

Definition import_world : World := mkWorld "2024-05-01T09:00:00" [] [].
Definition world_10h00 : World := mkWorld "2024-05-01T10:00:00" [] [].

Definition sample_info : BMWVehicleInfo :=
  mkBMWVehicleInfo sample_vin SERIES_3 2020
    (JStr "X3") (JStr "Unknown") (JStr "Unknown") (JStr "Unknown")
    (JStr "Unknown") "Munich, Germany" JNull "2024-05-01T09:00:00".

(** An answer whose model year is not a number. *)
Definition bad_year_results : list json :=
  [ pair_of "Model" "X5"; pair_of "ModelYear" "20x0" ].

Definition bad_year_body : json := JObj [("Results", JArr bad_year_results)].

Definition bad_year_server : list string -> string -> reply :=
  fun _ _ => Reply (mkResponse 200 (Some bad_year_body)).

(** An answer without a model year. *)
Definition no_year_body : json := JObj [("Results", JArr [pair_of "Model" "X5"])].

Definition no_year_server : list string -> string -> reply :=
  fun _ _ => Reply (mkResponse 200 (Some no_year_body)).

(** A VIN of eleven characters. *)
Definition short_vin : string := "WBA3A5C51CF".

(** A service that has no answer for [short_vin] and answers every other
    request with [sample_body]. *)
Definition flaky_server : list string -> string -> reply :=
  fun _ url =>
    if url =? decode_url short_vin then NoReply "connection refused"
    else Reply (mkResponse 200 (Some sample_body)).

(** The second VIN of the source's [update]; its character 11 is [X]. *)
Definition other_vin : string := "WBAHF3C03NWX42344".

(** Two raw recall entries: one complete but for the remedy, one with
    the campaign number only. *)
Definition sample_recalls : list (list (string * json)) :=
  [ [ ("CampaignNumber", JStr "20V123");
      ("Component", JStr "AIR BAGS");
      ("Summary", JStr "Inflator may rupture");
      ("Consequence", JStr "Injury");
      ("ReportReceivedDate", JStr "01/02/2020") ];
    [ ("CampaignNumber", JStr "21V456") ] ].

Definition recalls_body : json :=
  JObj [("Count", JNum 2); ("Results", JArr (map JObj sample_recalls))].

Definition recalls_server : list string -> string -> reply :=
  fun _ _ => Reply (mkResponse 200 (Some recalls_body)).

(** A VIN of 17 characters of another manufacturer. *)
Definition foreign_vin : string := "1HGCM82633A004352".

(** *** Vocabulary of the further properties *)

(** [item] stores nothing under [name]: when its value passes the filter
    its [Variable] is not the text [name]. *)
Definition silent_for (name : string) (item : json) : Prop :=
  forall v,
    Py.getitem item "Value" = Ok v -> kept v = true ->
    Py.getitem item "Variable" <> Ok (JStr name).

(** A success status for [raise_for_status]. *)
Definition passes_status (st : Z) : Prop := (st < 400 \/ 600 <= st)%Z.

(** [short] is [long] with some elements left out, order kept. *)
Inductive subseq {A : Type} : list A -> list A -> Prop :=
| subseq_nil : subseq [] []
| subseq_take x short long : subseq short long -> subseq (x :: short) (x :: long)
| subseq_drop x short long : subseq short long -> subseq short (x :: long).

(** An answer that names the model three times. *)
Definition repeated_results : list json :=
  [ pair_of "Model" "X5";
    pair_of "Model" "X3";
    pair_of "Model" EmptyString;
    pair_of "ModelYear" "2020" ].

Definition repeated_body : json := JObj [("Results", JArr repeated_results)].

Definition repeated_server : list string -> string -> reply :=
  fun _ _ => Reply (mkResponse 200 (Some repeated_body)).

(** A recall answer whose second entry is text, not an object. *)
Definition mixed_recalls : list json :=
  [ JObj [("CampaignNumber", JStr "20V123")];
    JStr "withdrawn";
    JObj [("CampaignNumber", JStr "21V456")] ].

Definition mixed_recalls_body : json := JObj [("Results", JArr mixed_recalls)].

Definition mixed_recalls_server : list string -> string -> reply :=
  fun _ _ => Reply (mkResponse 200 (Some mixed_recalls_body)).

(** A service that cannot be reached. *)
Definition dead_server : list string -> string -> reply :=
  fun _ _ => NoReply "connection refused".

(** A stand-in for the text Python prints for a dict. *)
Definition sample_repr : record -> string := fun _ => "{...}".

(* ================================================================= *)
(** ** Text lemmas *)

Lemma prefix_iff (n h : string) :
  String.prefix n h = true <-> exists rest, h = n ++ rest.
Proof.
  revert h. induction n as [|a n IH]; intros h.
  - destruct h; simpl; (split; [intros _; eexists; reflexivity | reflexivity]).
  - destruct h as [|b h]; simpl.
    + split; [discriminate | intros [rest H]; discriminate].
    + destruct (Ascii.ascii_dec a b) as [->|Hab].
      * rewrite IH. split; intros [rest H]; exists rest.
        -- now rewrite H.
        -- now injection H.
      * split; [discriminate | intros [rest H]; injection H; intros; congruence].
Qed.

Lemma str_in_nil (n : string) :
  Py.str_in n EmptyString = String.prefix n EmptyString.
Proof. unfold Py.str_in. apply orb_false_r. Qed.

Lemma str_in_cons (n : string) (c : ascii) (h : string) :
  Py.str_in n (String c h) = String.prefix n (String c h) || Py.str_in n h.
Proof. reflexivity. Qed.

Lemma str_in_iff (n h : string) : Py.str_in n h = true <-> occurs n h.
Proof.
  unfold occurs. induction h as [|c h IH].
  - rewrite str_in_nil, prefix_iff. split.
    + intros [rest H]. exists EmptyString, rest. exact H.
    + intros [b [a H]]. destruct b; [now exists a | discriminate].
  - rewrite str_in_cons, orb_true_iff, prefix_iff, IH. split.
    + intros [[rest H] | [b [a H]]].
      * exists EmptyString, rest. exact H.
      * exists (String c b), a. simpl. now rewrite H.
    + intros [b [a H]]. destruct b as [|c' b]; simpl in H.
      * left. now exists a.
      * right. exists b, a. now injection H.
Qed.

Lemma str_in_false_iff (n h : string) : Py.str_in n h = false <-> ~ occurs n h.
Proof.
  rewrite <- str_in_iff. destruct (Py.str_in n h); split; congruence.
Qed.

(* ================================================================= *)
(** ** Series classification *)

Lemma first_series_text (todo : list BMWSeriesEnum) (name : string) :
  first_series todo (JStr name) =
  Ok (match find (fun s => Py.str_in (value s) name) todo with
      | Some s => s
      | None => UNKNOWN
      end).
Proof.
  induction todo as [|s todo IH]; simpl; [reflexivity|].
  destruct (Py.str_in (value s) name); [reflexivity | exact IH].
Qed.

Ltac series_cases :=
  repeat match goal with
  | |- context [if Py.str_in ?c ?n then _ else _] =>
      let E := fresh "E" in destruct (Py.str_in c n) eqn:E
  end.

(** Claim C4.  On a text model name the classifier returns the first
    member, in declaration order 1,2,3,4,5,6,7,8,X,M,i,Unknown, whose code
    occurs in the name, and [UNKNOWN] when no code occurs.  Members 3 and
    5 are declared in that order and 3 before X, so ["X3"] and ["335i"]
    are series 3, as is every name with a 3 and a 5 in which no earlier
    code (1 or 2) occurs. *)
Theorem C4_series_first_match_in_declaration_order :
  (forall name : string,
     exists s,
       _determine_bmw_series (JStr name) = Ok s /\
       ((occurs (value s) name /\
         forall t, ordinal t < ordinal s -> ~ occurs (value t) name)
        \/
        (s = UNKNOWN /\ forall t, ~ occurs (value t) name))) /\
  map value members =
    ["1"; "2"; "3"; "4"; "5"; "6"; "7"; "8"; "X"; "M"; "i"; "Unknown"] /\
  (forall s, nth_error members (ordinal s) = Some s) /\
  ordinal SERIES_3 < ordinal SERIES_5 /\
  ordinal SERIES_3 < ordinal SERIES_X /\
  _determine_bmw_series (JStr "X3") = Ok SERIES_3 /\
  _determine_bmw_series (JStr "335i") = Ok SERIES_3 /\
  (forall name,
     occurs "3" name -> occurs "5" name ->
     ~ occurs "1" name -> ~ occurs "2" name ->
     _determine_bmw_series (JStr name) = Ok SERIES_3).
Proof.
  split; [|split; [|split; [|split; [|split; [|split; [|split]]]]]].
  - intros name. unfold _determine_bmw_series.
    rewrite first_series_text. eexists. split; [reflexivity|].
    unfold members, find, value.
    series_cases;
      try (left; split;
           [ apply str_in_iff; assumption
           | intros t Ht; apply str_in_false_iff;
             destruct t; cbv in Ht; try lia; assumption ]).
    right. split; [reflexivity|].
    intros t. apply str_in_false_iff. destruct t; assumption.
  - reflexivity.
  - intros s. destruct s; reflexivity.
  - cbv. lia.
  - cbv. lia.
  - reflexivity.
  - reflexivity.
  - intros name H3 H5 H1 H2. unfold _determine_bmw_series.
    rewrite first_series_text. unfold members, find, value.
    apply str_in_iff in H3. apply str_in_false_iff in H1, H2.
    rewrite H1, H2, H3. reflexivity.
Qed.

(* ================================================================= *)
(** ** The decoder, step by step *)

Section DecoderFacts.

Variable server : list string -> string -> reply.
Variable loaded : World.

Lemma decode_bmw_vin_unfold (vin : string) (w : World) :
  decode_bmw_vin server loaded vin w =
  match decode_reply loaded vin (server (requests_made w) (decode_url vin)) with
  | Ok info => (Ok info, after_request (decode_url vin) w)
  | Err e =>
      (Err e, after_log (decode_log_text e) (after_request (decode_url vin) w))
  end.
Proof.
  unfold decode_bmw_vin, try_except, decode_steps, bind, requests_get, lift,
    log_and_reraise, logger_error, raise, decode_reply, obind.
  destruct (server (requests_made w) (decode_url vin)) as [detail|r];
    [reflexivity|].
  destruct (raise_for_status r); [|reflexivity].
  destruct (response_json r) as [data|]; [|reflexivity].
  destruct (vehicle_of_data loaded vin data); reflexivity.
Qed.

Lemma get_bmw_recalls_unfold (vin : string) (w : World) :
  get_bmw_recalls server vin w =
  match recalls_reply (server (requests_made w) (recalls_url vin)) with
  | Ok rs => (Ok rs, after_request (recalls_url vin) w)
  | Err e =>
      (Err e, after_log ("Error fetching recalls: " ++ exn_msg e)
                (after_request (recalls_url vin) w))
  end.
Proof.
  unfold get_bmw_recalls, try_except, bind, requests_get, lift,
    log_and_reraise, logger_error, raise, recalls_reply, obind.
  destruct (server (requests_made w) (recalls_url vin)) as [detail|r];
    [reflexivity|].
  destruct (raise_for_status r); [|reflexivity].
  destruct (response_json r) as [data|]; [|reflexivity].
  destruct (Py.get_method data "Results" (JArr [])); reflexivity.
Qed.

Lemma decode_reply_answers (vin : string) (w : World) (data : json) :
  answers server w (decode_url vin) data ->
  decode_reply loaded vin (server (requests_made w) (decode_url vin)) =
  vehicle_of_data loaded vin data.
Proof.
  intros [st [Hs Hst]]. rewrite Hs. unfold decode_reply.
  rewrite Hst. reflexivity.
Qed.

(** A decode that returns was answered with a JSON document from which
    the record was built, and only the request was added to the world. *)
Lemma decode_ok_inv (vin : string) (w w' : World) (info : BMWVehicleInfo) :
  decode_bmw_vin server loaded vin w = (Ok info, w') ->
  exists data,
    answers server w (decode_url vin) data /\
    vehicle_of_data loaded vin data = Ok info /\
    w' = after_request (decode_url vin) w.
Proof.
  rewrite decode_bmw_vin_unfold.
  destruct (server (requests_made w) (decode_url vin)) as [detail|[st b]] eqn:Hs;
    unfold decode_reply; [discriminate|].
  destruct (raise_for_status (mkResponse st b)) eqn:Hst; [|discriminate].
  destruct b as [data|]; [|discriminate].
  unfold obind, response_json, body.
  destruct (vehicle_of_data loaded vin data) eqn:Hv; [|discriminate].
  intros H. injection H as <- <-.
  exists data. repeat split; try assumption.
  exists st. destruct a. split; assumption.
Qed.

(** What a successfully built record holds. *)
Lemma vehicle_of_data_ok (vin : string) (data : json) (info : BMWVehicleInfo) :
  vehicle_of_data loaded vin data = Ok info ->
  exists results s y c,
    project_results data = Ok results /\
    _determine_bmw_series (Py.dict_get results "Model" (JStr "Unknown")) = Ok s /\
    Py.int (Py.dict_get results "ModelYear" (JNum 0)) = Ok y /\
    String.get 11 vin = Some c /\
    info =
      mkBMWVehicleInfo vin s y
        (Py.dict_get results "Model" (JStr "Unknown"))
        (Py.dict_get results "BodyClass" (JStr "Unknown"))
        (Py.dict_get results "EngineConfiguration" (JStr "Unknown"))
        (Py.dict_get results "TransmissionStyle" (JStr "Unknown"))
        (Py.dict_get results "DriveType" (JStr "Unknown"))
        (table_get _plant_codes (String c EmptyString) "Unknown")
        (Py.dict_get results "DateProduced" JNull)
        (now_isoformat loaded).
Proof.
  unfold vehicle_of_data, obind.
  destruct (project_results data) as [results|] eqn:Hp; [|discriminate].
  destruct (_determine_bmw_series _) as [s|] eqn:Hs; [|discriminate].
  destruct (Py.int _) as [y|] eqn:Hy; [|discriminate].
  unfold Py.str_index.
  destruct (String.get 11 vin) as [c|] eqn:Hc; [|discriminate].
  intros H. injection H as <-.
  exists results, s, y, c. repeat split; assumption || reflexivity.
Qed.

(* ================================================================= *)
(** ** The time stamp of a decode *)

(** Whatever the clock shows when a decode runs, the record carries the
    text captured when the class was defined. *)
Lemma decoded_date_is_class_default
    (vin : string) (w w' : World) (info : BMWVehicleInfo) :
  decode_bmw_vin server loaded vin w = (Ok info, w') ->
  decoded_date info = now_isoformat loaded.
Proof.
  intros H. apply decode_ok_inv in H. destruct H as [data [_ [H _]]].
  apply vehicle_of_data_ok in H.
  destruct H as [results [s [y [c [_ [_ [_ [_ ->]]]]]]]]. reflexivity.
Qed.

(* ================================================================= *)
(** ** The plant of manufacture *)

(** Claim C7.  A decode that returns a record has read the character at
    index 11 of the VIN and looked it up in the plant-code table with
    default ["Unknown"]: [C] gives ["Munich, Germany"], and [Z], like any
    character without an entry, gives ["Unknown"]. *)
Theorem C7_manufacturing_plant_from_position_11
    (vin : string) (w w' : World) (info : BMWVehicleInfo) :
  decode_bmw_vin server loaded vin w = (Ok info, w') ->
  exists c,
    String.get 11 vin = Some c /\
    manufacturing_plant info =
      table_get _plant_codes (String c EmptyString) "Unknown" /\
    (c = "C"%char -> manufacturing_plant info = "Munich, Germany") /\
    (c = "Z"%char -> manufacturing_plant info = "Unknown") /\
    ((forall entry, In entry _plant_codes -> fst entry <> String c EmptyString) ->
     manufacturing_plant info = "Unknown").
Proof.
  intros H. apply decode_ok_inv in H. destruct H as [data [_ [H _]]].
  apply vehicle_of_data_ok in H.
  destruct H as [results [s [y [c [_ [_ [_ [Hc ->]]]]]]]].
  exists c. cbn [manufacturing_plant].
  split; [exact Hc|]. split; [reflexivity|].
  split; [intros ->; reflexivity|].
  split; [intros ->; reflexivity|].
  intros Hno. induction _plant_codes as [|[k v] t IH]; [reflexivity|].
  cbn [table_get].
  destruct (String.eqb_spec k (String c EmptyString)) as [Hk|Hk].
  - exfalso. apply (Hno (k, v)); [left; reflexivity | exact Hk].
  - apply IH. intros entry Hin. apply Hno. right. exact Hin.
Qed.

(* ================================================================= *)
(** ** Tables the source does not know *)

(** Claim C10.  For a table name other than ["bmw_vehicles"] and
    ["bmw_recalls"], [fetch_records] returns the empty list and leaves the
    world as it was: nothing is requested and nothing is logged, whatever
    the configured VINs. *)
Theorem C10_unknown_table_fetches_nothing
    (vins : list string) (table_name : string) (w : World) :
  table_name <> "bmw_vehicles" ->
  table_name <> "bmw_recalls" ->
  fetch_records server loaded vins table_name w = (Ok [], w).
Proof.
  intros Hv Hr. unfold fetch_records.
  apply String.eqb_neq in Hv, Hr. rewrite Hv, Hr. reflexivity.
Qed.

(* ================================================================= *)
(** ** The projection of the answer into a dict *)

Lemma key_eq_str (k : json) (n : string) :
  Py.key_eq k (JStr n) = true <-> k = JStr n.
Proof.
  destruct k; simpl; try (split; [discriminate | intros H; discriminate]).
  rewrite String.eqb_eq. split; [intros -> | intros H; injection H]; auto.
Qed.

Lemma key_eq_str_trans (k k' : json) (n : string) :
  Py.key_eq k' k = true -> Py.key_eq k' (JStr n) = Py.key_eq k (JStr n).
Proof.
  intros H.
  destruct (Py.key_eq k (JStr n)) eqn:E.
  - apply key_eq_str in E. subst k. exact H.
  - destruct (Py.key_eq k' (JStr n)) eqn:E'; [|reflexivity].
    apply key_eq_str in E'. subst k'.
    destruct k; simpl in H; try discriminate.
    apply String.eqb_eq in H. subst s.
    simpl in E. rewrite String.eqb_refl in E. discriminate.
Qed.

Lemma dict_find_set_str (d : Py.dict) (k v : json) (n : string) :
  Py.dict_find (Py.dict_set d k v) (JStr n) =
  if Py.key_eq k (JStr n) then Some v else Py.dict_find d (JStr n).
Proof.
  induction d as [|[k' v'] d IH]; cbn [Py.dict_set Py.dict_find].
  - reflexivity.
  - destruct (Py.key_eq k' k) eqn:E; cbn [Py.dict_find].
    + rewrite (key_eq_str_trans _ _ _ E).
      destruct (Py.key_eq k (JStr n)); reflexivity.
    + rewrite IH. destruct (Py.key_eq k' (JStr n)) eqn:E'; [|reflexivity].
      destruct (Py.key_eq k (JStr n)) eqn:E''; [|reflexivity].
      apply key_eq_str in E', E''. subst. 
      simpl in E. rewrite String.eqb_refl in E. discriminate.
Qed.

Lemma values_kept_set (d : Py.dict) (k v : json) :
  values_kept d -> kept v = true -> values_kept (Py.dict_set d k v).
Proof.
  unfold values_kept. intros Hd Hv.
  induction d as [|[k' v'] d IH]; cbn [Py.dict_set].
  - constructor; [exact Hv | constructor].
  - inversion Hd as [|? ? Hh Ht]; subst.
    destruct (Py.key_eq k' k); constructor; auto.
Qed.

Lemma values_kept_find (d : Py.dict) (k v : json) :
  values_kept d -> Py.dict_find d k = Some v -> kept v = true.
Proof.
  unfold values_kept. intros Hd.
  induction Hd as [|[k' v'] d Hh Ht IH]; cbn [Py.dict_find]; [discriminate|].
  destruct (Py.key_eq k' k); [|exact IH].
  intros H. injection H as <-. exact Hh.
Qed.

Lemma kept_not_empty_or_zero (v : json) :
  kept v = true -> ~ empty_or_zero v.
Proof.
  intros H [-> | ->]; discriminate.
Qed.

Lemma project_item_kept (acc acc' : Py.dict) (item : json) :
  values_kept acc -> project_item acc item = Ok acc' -> values_kept acc'.
Proof.
  intros Hacc. unfold project_item, obind.
  destruct (Py.getitem item "Value") as [v|]; [|discriminate].
  fold (kept v). destruct (kept v) eqn:Hk.
  - destruct (Py.getitem item "Variable") as [k|]; [|discriminate].
    destruct (Py.hashable k); [|discriminate].
    intros H. injection H as <-. apply values_kept_set; assumption.
  - intros H. injection H as <-. exact Hacc.
Qed.

Lemma project_items_kept (items : list json) (acc acc' : Py.dict) :
  values_kept acc -> project_items items acc = Ok acc' -> values_kept acc'.
Proof.
  revert acc. induction items as [|item items IH]; intros acc Hacc; simpl.
  - intros H. injection H as <-. exact Hacc.
  - unfold obind. destruct (project_item acc item) as [acc1|] eqn:E;
      [|discriminate].
    apply IH. eapply project_item_kept; eassumption.
Qed.

Lemma project_item_absent (n : string) (acc acc' : Py.dict) (item : json) :
  (Py.getitem item "Variable" = Ok (JStr n) ->
   exists v, Py.getitem item "Value" = Ok v /\ empty_or_zero v) ->
  Py.dict_find acc (JStr n) = None ->
  project_item acc item = Ok acc' ->
  Py.dict_find acc' (JStr n) = None.
Proof.
  intros Hitem Hacc. unfold project_item, obind.
  destruct (Py.getitem item "Value") as [v|] eqn:Hv; [|discriminate].
  fold (kept v). destruct (kept v) eqn:Hk.
  - destruct (Py.getitem item "Variable") as [k|] eqn:Hvar; [|discriminate].
    destruct (Py.hashable k); [|discriminate].
    intros H. injection H as <-. rewrite dict_find_set_str.
    destruct (Py.key_eq k (JStr n)) eqn:E; [|exact Hacc].
    apply key_eq_str in E. subst k.
    destruct (Hitem eq_refl) as [v' [Hv' Hd]].
    assert (v' = v) by congruence. subst v'.
    exfalso. exact (kept_not_empty_or_zero v Hk Hd).
  - intros H. injection H as <-. exact Hacc.
Qed.

Lemma project_items_absent (n : string) (items : list json) (acc acc' : Py.dict) :
  all_discarded n items ->
  Py.dict_find acc (JStr n) = None ->
  project_items items acc = Ok acc' ->
  Py.dict_find acc' (JStr n) = None.
Proof.
  revert acc. induction items as [|item items IH]; intros acc Hall Hacc; simpl.
  - intros H. injection H as <-. exact Hacc.
  - unfold obind. destruct (project_item acc item) as [acc1|] eqn:E;
      [|discriminate].
    apply IH.
    + intros it Hin. apply Hall. right. exact Hin.
    + eapply project_item_absent; [|exact Hacc|exact E].
      apply Hall. left. reflexivity.
Qed.

Lemma dict_get_absent (d : Py.dict) (n : string) (default : json) :
  Py.dict_find d (JStr n) = None -> Py.dict_get d n default = default.
Proof. unfold Py.dict_get. intros ->. reflexivity. Qed.

Lemma dict_get_not_empty_or_zero (d : Py.dict) (n : string) (default : json) :
  values_kept d -> ~ empty_or_zero default ->
  ~ empty_or_zero (Py.dict_get d n default).
Proof.
  intros Hd Hdef. unfold Py.dict_get.
  destruct (Py.dict_find d (JStr n)) as [v|] eqn:E; [|exact Hdef].
  apply kept_not_empty_or_zero. eapply values_kept_find; eassumption.
Qed.

Lemma project_results_list (data : json) (items : list json) :
  Py.getitem data "Results" = Ok (JArr items) ->
  project_results data = project_items items [].
Proof. intros H. unfold project_results. rewrite H. reflexivity. Qed.

Lemma project_item_discards (acc : Py.dict) (item v : json) :
  Py.getitem item "Value" = Ok v -> empty_or_zero v ->
  project_item acc item = Ok acc.
Proof.
  intros Hv Hd. unfold project_item. rewrite Hv.
  destruct Hd as [-> | ->]; reflexivity.
Qed.

(** Claim C2.  A pair whose [Value] is empty or ["0"] adds nothing to the
    dict under construction.  When the decode endpoint answers with a
    list of pairs and the decode returns a record, the pairs were
    projected into a dict that holds no empty and no ["0"] value; a name
    all of whose pairs have such a value has no entry in the dict, and
    the field read from it takes its default: ["Unknown"] (and series
    [UNKNOWN]) for the model, 0 for the model year, ["Unknown"] for body,
    engine, transmission and drive type, and none for the production
    date.  No text field of the record is empty or ["0"]. *)
Theorem C2_empty_and_zero_values_fall_to_defaults
    (vin : string) (w w' : World) (data : json) (items : list json)
    (info : BMWVehicleInfo) :
  answers server w (decode_url vin) data ->
  Py.getitem data "Results" = Ok (JArr items) ->
  decode_bmw_vin server loaded vin w = (Ok info, w') ->
  (forall acc item v,
     Py.getitem item "Value" = Ok v -> empty_or_zero v ->
     project_item acc item = Ok acc) /\
  (exists results,
     project_results data = Ok results /\
     (forall k v, Py.dict_find results k = Some v -> ~ empty_or_zero v) /\
     (forall name, all_discarded name items ->
                   Py.dict_find results (JStr name) = None)) /\
  (forall field,
     In field [model_name info; body_type info; engine_type info;
               transmission info; drive_type info; production_date info] ->
     ~ empty_or_zero field) /\
  (all_discarded "Model" items ->
   model_name info = JStr "Unknown" /\ series info = UNKNOWN) /\
  (all_discarded "ModelYear" items -> model_year info = 0%Z) /\
  (all_discarded "BodyClass" items -> body_type info = JStr "Unknown") /\
  (all_discarded "EngineConfiguration" items ->
   engine_type info = JStr "Unknown") /\
  (all_discarded "TransmissionStyle" items ->
   transmission info = JStr "Unknown") /\
  (all_discarded "DriveType" items -> drive_type info = JStr "Unknown") /\
  (all_discarded "DateProduced" items -> production_date info = JNull).
Proof.
  intros Hans Hres Hdec.
  split; [exact project_item_discards|].
  rewrite decode_bmw_vin_unfold, (decode_reply_answers _ _ _ Hans) in Hdec.
  destruct (vehicle_of_data loaded vin data) as [info'|] eqn:Hv;
    [|discriminate].
  injection Hdec as -> _.
  apply vehicle_of_data_ok in Hv.
  destruct Hv as [results [s [y [c [Hp [Hs [Hy [_ ->]]]]]]]].
  rewrite (project_results_list _ _ Hres) in Hp.
  assert (Hkept : values_kept results).
  { eapply project_items_kept; [|exact Hp]. constructor. }
  assert (Habsent : forall name, all_discarded name items ->
                                 Py.dict_find results (JStr name) = None).
  { intros name Hall. eapply project_items_absent; [exact Hall| |exact Hp].
    reflexivity. }
  cbn [model_name body_type engine_type transmission drive_type
       production_date model_year series].
  split.
  { exists results. rewrite (project_results_list _ _ Hres).
    split; [exact Hp|]. split; [|exact Habsent].
    intros k v Hf. apply kept_not_empty_or_zero.
    eapply values_kept_find; eassumption. }
  split.
  { intros field Hin.
    assert (Hu : ~ empty_or_zero (JStr "Unknown")) by (intros [H|H]; discriminate).
    assert (Hn : ~ empty_or_zero JNull) by (intros [H|H]; discriminate).
    repeat (destruct Hin as [<-|Hin];
            [apply dict_get_not_empty_or_zero; assumption|]).
    destruct Hin. }
  split.
  { intros Hall. pose proof (dict_get_absent _ _ (JStr "Unknown") (Habsent _ Hall)) as E.
    split; [exact E|]. rewrite E in Hs. vm_compute in Hs. congruence. }
  split.
  { intros Hall. rewrite (dict_get_absent _ _ _ (Habsent _ Hall)) in Hy.
    simpl in Hy. congruence. }
  repeat split; intros Hall; apply dict_get_absent, Habsent, Hall.
Qed.

(* ================================================================= *)
(** ** The model year *)

Lemma int_error_class (v : json) (e : exn) :
  Py.int v = Err e ->
  (exn_cls e = ValueError \/ exn_cls e = TypeError) /\
  (forall s, v = JStr s -> exn_cls e = ValueError /\ Py.int_of_str s = None).
Proof.
  destruct v; simpl; try discriminate;
    try (intros H; injection H as <-; split; [right; reflexivity|];
         intros ? ?; discriminate).
  destruct (Py.int_of_str s) eqn:E; [discriminate|].
  intros H. injection H as <-. split; [left; reflexivity|].
  intros s' H'. injection H' as <-. split; [reflexivity | exact E].
Qed.

Lemma determine_series_text (name : string) :
  exists s, _determine_bmw_series (JStr name) = Ok s.
Proof.
  unfold _determine_bmw_series. rewrite first_series_text. eexists. reflexivity.
Qed.

(** Claim C5.  With the dict projected from the answer: when it has no
    [ModelYear] entry the conversion is applied to the default 0 and
    gives 0, every returned record has model year 0, and a record is
    indeed returned, with model year 0, once the model name is text and
    the VIN has a character at index 11; when it has an entry whose value
    [int] rejects, the decode returns no record but raises, and with a
    text model name what it raises is that conversion failure itself (a
    [ValueError] for a text value), logged and passed on to the
    caller. *)
Theorem C5_model_year_default_and_conversion_failure
    (vin : string) (w : World) (data : json) (results : Py.dict) :
  answers server w (decode_url vin) data ->
  project_results data = Ok results ->
  (Py.dict_find results (JStr "ModelYear") = None ->
   Py.int (Py.dict_get results "ModelYear" (JNum 0)) = Ok 0%Z /\
   (forall info w',
      decode_bmw_vin server loaded vin w = (Ok info, w') ->
      model_year info = 0%Z) /\
   (forall name c,
      Py.dict_get results "Model" (JStr "Unknown") = JStr name ->
      String.get 11 vin = Some c ->
      exists info,
        decode_bmw_vin server loaded vin w =
          (Ok info, after_request (decode_url vin) w) /\
        model_year info = 0%Z)) /\
  (forall v e,
     Py.dict_find results (JStr "ModelYear") = Some v ->
     Py.int v = Err e ->
     ~ empty_or_zero v /\
     (exn_cls e = ValueError \/ exn_cls e = TypeError) /\
     (forall s, v = JStr s -> exn_cls e = ValueError) /\
     (exists e' w', decode_bmw_vin server loaded vin w = (Err e', w')) /\
     (forall name,
        Py.dict_get results "Model" (JStr "Unknown") = JStr name ->
        decode_bmw_vin server loaded vin w =
        (Err e, after_log ("Unexpected error: " ++ exn_msg e)
                  (after_request (decode_url vin) w)))).
Proof.
  intros Hans Hp.
  rewrite decode_bmw_vin_unfold, (decode_reply_answers _ _ _ Hans).
  split.
  - intros Habs.
    assert (Hzero : Py.int (Py.dict_get results "ModelYear" (JNum 0)) = Ok 0%Z).
    { rewrite (dict_get_absent _ _ _ Habs). reflexivity. }
    split; [exact Hzero|]. split.
    + intros info w' Hdec.
      destruct (vehicle_of_data loaded vin data) as [info'|] eqn:Hv;
        [|discriminate].
      injection Hdec as -> _.
      apply vehicle_of_data_ok in Hv.
      destruct Hv as [results' [s [y [c [Hp' [_ [Hy [_ ->]]]]]]]].
      assert (results' = results) by congruence. subst results'.
      rewrite Hzero in Hy. cbn [model_year]. congruence.
    + intros name c Hname Hc.
      unfold vehicle_of_data. rewrite Hp. cbn [obind]. rewrite Hname.
      destruct (determine_series_text name) as [s ->]. cbn [obind].
      rewrite Hzero. cbn [obind]. unfold Py.str_index. rewrite Hc.
      cbn [obind]. eexists. split; reflexivity.
  - intros v e Hfind Hint.
    assert (Hget : Py.dict_get results "ModelYear" (JNum 0) = v).
    { unfold Py.dict_get. rewrite Hfind. reflexivity. }
    destruct (int_error_class v e Hint) as [Hcls Htext].
    split.
    { unfold project_results, obind in Hp.
      destruct (Py.getitem data "Results") as [rs|]; [|discriminate].
      destruct (Py.iter rs) as [items|]; [|discriminate].
      apply kept_not_empty_or_zero.
      eapply values_kept_find; [|exact Hfind].
      eapply project_items_kept; [|exact Hp]. constructor. }
    split; [exact Hcls|].
    split; [intros s Hs; exact (proj1 (Htext s Hs))|].
    unfold vehicle_of_data. rewrite Hp. cbn [obind].
    split.
    + destruct (_determine_bmw_series _); cbn [obind].
      * rewrite Hget, Hint. cbn [obind]. eexists. eexists. reflexivity.
      * eexists. eexists. reflexivity.
    + intros name Hname. rewrite Hname.
      destruct (determine_series_text name) as [s ->]. cbn [obind].
      rewrite Hget, Hint. cbn [obind].
      unfold decode_log_text, is_request_exception, is_json_decode_error.
      destruct Hcls as [-> | ->]; reflexivity.
Qed.

(* ================================================================= *)
(** ** VINs too short for the plant lookup *)

Lemma get_beyond_length (s : string) (n : nat) :
  String.length s <= n -> String.get n s = None.
Proof.
  revert n. induction s as [|c s IH]; intros n H; [reflexivity|].
  destruct n as [|n]; simpl in *; [lia|]. apply IH. lia.
Qed.

Lemma values_text_set (d : Py.dict) (k : json) (s : string) :
  values_text d -> values_text (Py.dict_set d k (JStr s)).
Proof.
  unfold values_text. intros Hd.
  induction d as [|[k' v'] d IH]; cbn [Py.dict_set].
  - constructor; [now exists s | constructor].
  - inversion Hd as [|? ? Hh Ht]; subst.
    destruct (Py.key_eq k' k); constructor; auto. now exists s.
Qed.

Lemma values_text_get (d : Py.dict) (n default : string) :
  values_text d -> exists s, Py.dict_get d n (JStr default) = JStr s.
Proof.
  unfold values_text, Py.dict_get. intros Hd.
  induction Hd as [|[k' v'] d Hh Ht IH]; cbn [Py.dict_find].
  - now exists default.
  - destruct (Py.key_eq k' (JStr n)); [exact Hh | exact IH].
Qed.

(** Pairs of the documented shape always project. *)
Lemma project_items_well_formed (items : list json) (acc : Py.dict) :
  Forall well_formed_pair items -> values_text acc ->
  exists results, project_items items acc = Ok results /\ values_text results.
Proof.
  intros Hwf. revert acc.
  induction Hwf as [|item items [var [val [Hvar [Hval Hshape]]]] _ IH];
    intros acc Hacc; cbn [project_items].
  - exists acc. split; [reflexivity | exact Hacc].
  - unfold project_item. rewrite Hval. cbn [obind].
    destruct Hshape as [-> | [s ->]].
    + cbn [Py.truthy andb obind]. apply IH. exact Hacc.
    + destruct (Py.truthy (JStr s) && negb (Py.eq_str (JStr s) "0")).
      * rewrite Hvar. cbn [obind Py.hashable]. apply IH.
        apply values_text_set. exact Hacc.
      * cbn [obind]. apply IH. exact Hacc.
Qed.

(** Claim C9, amended.  A VIN shorter than 12 characters never decodes:
    the call raises whatever the endpoint does.  When the endpoint
    answers with a list of well-formed pairs from which the model year,
    if it survives the discard, converts to an integer, what is raised
    is the out-of-range indexing error of the plant lookup, logged as an
    unexpected error. *)
Theorem C9_short_vin_never_decodes (vin : string) (w : World) :
  String.length vin < 12 ->
  (exists e w', decode_bmw_vin server loaded vin w = (Err e, w')) /\
  (forall data items,
     answers server w (decode_url vin) data ->
     Py.getitem data "Results" = Ok (JArr items) ->
     Forall well_formed_pair items ->
     (forall results,
        project_results data = Ok results ->
        exists y, Py.int (Py.dict_get results "ModelYear" (JNum 0)) = Ok y) ->
     decode_bmw_vin server loaded vin w =
     (Err (Raise IndexError "string index out of range"),
      after_log "Unexpected error: string index out of range"
        (after_request (decode_url vin) w))).
Proof.
  intros Hlen.
  assert (Hget : String.get 11 vin = None) by (apply get_beyond_length; lia).
  split.
  - destruct (decode_bmw_vin server loaded vin w) as [[info|e] w'] eqn:Hdec.
    + apply decode_ok_inv in Hdec. destruct Hdec as [data [_ [Hv _]]].
      apply vehicle_of_data_ok in Hv.
      destruct Hv as [results [s [y [c [_ [_ [_ [Hc _]]]]]]]]. congruence.
    + exists e, w'. reflexivity.
  - intros data items Hans Hres Hwf Hyear.
    rewrite decode_bmw_vin_unfold, (decode_reply_answers _ _ _ Hans).
    destruct (project_items_well_formed items [] Hwf) as [results [Hp Htext]];
      [constructor|].
    rewrite <- (project_results_list _ _ Hres) in Hp.
    unfold vehicle_of_data. rewrite Hp. cbn [obind].
    destruct (values_text_get results "Model" "Unknown" Htext) as [name ->].
    destruct (determine_series_text name) as [s ->]. cbn [obind].
    destruct (Hyear results Hp) as [y ->]. cbn [obind].
    unfold Py.str_index. rewrite Hget. reflexivity.
Qed.

(* ================================================================= *)
(** ** The vehicles table *)

Lemma vehicles_loop_cons (vin : string) (rest : list string)
    (records : list record) (w : World) :
  vehicles_loop server loaded (vin :: rest) records w =
  match decode_bmw_vin server loaded vin w with
  | (Ok info, w1) =>
      vehicles_loop server loaded rest (records ++ [to_record info])%list w1
  | (Err e, w1) =>
      vehicles_loop server loaded rest records (after_log (skip_line vin e) w1)
  end.
Proof.
  cbn [vehicles_loop]. unfold bind at 1, try_except, bind at 1.
  destruct (decode_bmw_vin server loaded vin w) as [[info|e] w1]; reflexivity.
Qed.

Lemma vehicles_loop_acc (vins : list string) (records : list record) (w : World) :
  vehicles_loop server loaded vins records w =
  match vehicles_loop server loaded vins [] w with
  | (Ok rs, w') => (Ok (records ++ rs)%list, w')
  | (Err e, w') => (Err e, w')
  end.
Proof.
  revert records w. induction vins as [|vin rest IH]; intros records w.
  - cbn [vehicles_loop]. unfold ret. now rewrite app_nil_r.
  - rewrite !vehicles_loop_cons.
    destruct (decode_bmw_vin server loaded vin w) as [[info|e] w1].
    + rewrite (IH (records ++ [to_record info])%list), (IH ([] ++ [to_record info])%list).
      destruct (vehicles_loop server loaded rest [] w1) as [[rs|e] w'];
        [|reflexivity].
      now rewrite <- app_assoc.
    + apply IH.
Qed.

Lemma decode_requests (vin : string) (w : World) :
  requests_made (snd (decode_bmw_vin server loaded vin w)) =
  (requests_made w ++ [decode_url vin])%list.
Proof.
  rewrite decode_bmw_vin_unfold.
  destruct (decode_reply _ _ _); reflexivity.
Qed.

Lemma vehicles_loop_total (vins : list string) (w : World) :
  exists recs w',
    vehicles_loop server loaded vins [] w = (Ok recs, w') /\
    requests_made w' = (requests_made w ++ map decode_url vins)%list /\
    List.length recs <= List.length vins.
Proof.
  revert w. induction vins as [|vin rest IH]; intros w.
  - exists [], w. cbn. rewrite app_nil_r. auto.
  - rewrite vehicles_loop_cons.
    pose proof (decode_requests vin w) as Hreq.
    destruct (decode_bmw_vin server loaded vin w) as [[info|e] w1]; cbn [snd] in Hreq.
    + rewrite vehicles_loop_acc.
      destruct (IH w1) as [recs [w' [-> [Hr Hl]]]].
      exists (([] ++ [to_record info]) ++ recs)%list, w'.
      split; [reflexivity|]. split.
      * rewrite Hr, Hreq, <- app_assoc. reflexivity.
      * cbn. lia.
    + destruct (IH (after_log (skip_line vin e) w1)) as [recs [w' [-> [Hr Hl]]]].
      exists recs, w'. split; [reflexivity|]. split.
      * rewrite Hr. cbn [after_log requests_made]. rewrite Hreq, <- app_assoc.
        reflexivity.
      * cbn. lia.
Qed.

(** Claim C3.  For the vehicles table [fetch_records] never raises and
    requests a decode for every configured VIN, in input order.  A VIN
    whose decode returns puts its record in front of the records of the
    VINs after it; a VIN whose decode raises is logged and the result is
    that of the VINs after it.  So for VINs [A, B, C] where the decode of
    [B] raises, the output is the record of [A] followed by the record of
    [C], and the log has the line for [B]. *)
Theorem C3_vehicle_batch_isolates_failures (vins : list string) (w : World) :
  (exists recs w',
     fetch_records server loaded vins "bmw_vehicles" w = (Ok recs, w') /\
     requests_made w' = (requests_made w ++ map decode_url vins)%list /\
     List.length recs <= List.length vins) /\
  (forall vin info w1 recs w',
     decode_bmw_vin server loaded vin w = (Ok info, w1) ->
     fetch_records server loaded vins "bmw_vehicles" w1 = (Ok recs, w') ->
     fetch_records server loaded (vin :: vins) "bmw_vehicles" w =
     (Ok (to_record info :: recs), w')) /\
  (forall vin e w1,
     decode_bmw_vin server loaded vin w = (Err e, w1) ->
     fetch_records server loaded (vin :: vins) "bmw_vehicles" w =
     fetch_records server loaded vins "bmw_vehicles"
       (after_log (skip_line vin e) w1)) /\
  (forall A B C info_A e info_C w1 w2 w3,
     decode_bmw_vin server loaded A w = (Ok info_A, w1) ->
     decode_bmw_vin server loaded B w1 = (Err e, w2) ->
     decode_bmw_vin server loaded C (after_log (skip_line B e) w2)
       = (Ok info_C, w3) ->
     fetch_records server loaded [A; B; C] "bmw_vehicles" w =
       (Ok [to_record info_A; to_record info_C], w3) /\
     In (skip_line B e) (log w3)).
Proof.
  unfold fetch_records. cbn [String.eqb Ascii.eqb Bool.eqb].
  split; [apply vehicles_loop_total|].
  split; [|split].
  - intros vin info w1 recs w' Hd Hrest.
    rewrite vehicles_loop_cons, Hd, vehicles_loop_acc, Hrest. reflexivity.
  - intros vin e w1 Hd. rewrite vehicles_loop_cons, Hd. reflexivity.
  - intros A B C info_A e info_C w1 w2 w3 HA HB HC.
    rewrite vehicles_loop_cons, HA, vehicles_loop_cons, HB,
      vehicles_loop_cons, HC.
    split; [reflexivity|].
    apply decode_ok_inv in HC. destruct HC as [_ [_ [_ ->]]].
    cbn [after_request after_log log]. apply in_or_app. right. left. reflexivity.
Qed.

(* ================================================================= *)
(** ** The recalls table *)

Lemma recall_record_object (vin : string) (entry : list (string * json)) :
  recall_record vin (JObj entry) = Ok (recall_row vin entry).
Proof. reflexivity. Qed.

Lemma append_recalls_objects (vin : string) (entries : list (list (string * json)))
    (records : list record) :
  append_recalls vin (map JObj entries) records =
  ((records ++ map (recall_row vin) entries)%list, Ok tt).
Proof.
  revert records. induction entries as [|entry entries IH]; intros records.
  - cbn. now rewrite app_nil_r.
  - cbn [map append_recalls]. rewrite recall_record_object, IH.
    now rewrite <- app_assoc.
Qed.

Lemma recalls_loop_acc (vins : list string) (records : list record) (w : World) :
  exists rs w',
    recalls_loop server vins [] w = (Ok rs, w') /\
    recalls_loop server vins records w = (Ok (records ++ rs)%list, w').
Proof.
  revert records w. induction vins as [|vin rest IH]; intros records w.
  - exists [], w. cbn. unfold ret. now rewrite app_nil_r.
  - cbn [recalls_loop]. unfold recalls_try.
    destruct (get_bmw_recalls server vin w) as [[recalls|e] w1].
    + destruct (Py.iter recalls) as [items|e].
      * assert (Happ : exists added o,
                   forall acc, append_recalls vin items acc = ((acc ++ added)%list, o)).
        { clear. induction items as [|item items IHi].
          - exists [], (Ok tt). intros acc. cbn. now rewrite app_nil_r.
          - destruct IHi as [added [o Hi]]. cbn [append_recalls].
            destruct (recall_record vin item) as [r|e].
            + exists (r :: added), o. intros acc. rewrite Hi.
              now rewrite <- app_assoc.
            + exists [], (Err e). intros acc. now rewrite app_nil_r. }
        destruct Happ as [added [o Happ]]. rewrite !Happ.
        destruct o as [[]|e]; unfold bind, logger_error.
        -- destruct (IH ([] ++ added)%list w1) as [rs [w' [H0 H1]]].
           destruct (IH (records ++ added)%list w1) as [rs' [w'' [H0' H1']]].
           rewrite H1, H1'. rewrite H0 in H0'. injection H0' as <- <-.
           exists (added ++ rs)%list, w'. split; [reflexivity|].
           now rewrite <- app_assoc.
        -- destruct (IH ([] ++ added)%list (after_log (recall_skip_line vin e) w1))
             as [rs [w' [H0 H1]]].
           destruct (IH (records ++ added)%list (after_log (recall_skip_line vin e) w1))
             as [rs' [w'' [H0' H1']]].
           unfold recall_skip_line in *.
           rewrite H1, H1'. rewrite H0 in H0'. injection H0' as <- <-.
           exists (added ++ rs)%list, w'. split; [reflexivity|].
           now rewrite <- app_assoc.
      * unfold bind, logger_error.
        destruct (IH [] (after_log (recall_skip_line vin e) w1)) as [rs [w' [H0 _]]].
        destruct (IH records (after_log (recall_skip_line vin e) w1))
          as [rs' [w'' [H0' H1']]].
        unfold recall_skip_line in *.
        rewrite H0, H1'. rewrite H0 in H0'. injection H0' as <- <-.
        exists rs, w'. split; reflexivity.
    + unfold bind, logger_error.
      destruct (IH [] (after_log (recall_skip_line vin e) w1)) as [rs [w' [H0 _]]].
      destruct (IH records (after_log (recall_skip_line vin e) w1))
        as [rs' [w'' [H0' H1']]].
      unfold recall_skip_line in *.
      rewrite H0, H1'. rewrite H0 in H0'. injection H0' as <- <-.
      exists rs, w'. split; reflexivity.
Qed.

Lemma recalls_reply_answers (vin : string) (w : World) (data : json) :
  answers server w (recalls_url vin) data ->
  recalls_reply (server (requests_made w) (recalls_url vin)) =
  Py.get_method data "Results" (JArr []).
Proof.
  intros [st [Hs Hst]]. rewrite Hs. unfold recalls_reply.
  rewrite Hst. reflexivity.
Qed.

Lemma recall_row_columns (vin : string) (entry : list (string * json)) :
  column (recall_row vin entry) "vin" = Some (JStr vin) /\
  forall col key default,
    In (col, (key, default)) recall_columns ->
    (Py.obj_lookup entry key = None ->
     column (recall_row vin entry) col = Some (JStr default)) /\
    (forall v, Py.obj_lookup entry key = Some v ->
               column (recall_row vin entry) col = Some v).
Proof.
  split; [reflexivity|].
  intros col key default Hin.
  unfold recall_columns in Hin.
  repeat (destruct Hin as [Hin|Hin];
          [injection Hin as <- <- <-;
           split; [intros H | intros v H];
           cbn [recall_row column String.eqb Ascii.eqb Bool.eqb];
           unfold field_or; rewrite H; reflexivity|]).
  destruct Hin.
Qed.

(** Claim C6.  When the recall endpoint answers for a VIN with a list of
    entries, the recalls table gets exactly one record per entry for that
    VIN, in the order of the answer and ahead of the records of the VINs
    after it; an empty list adds none.  In each record a column holds the
    value of its raw key when the entry has it and otherwise its own
    default: ["Unknown"] for campaign_number and component, the empty
    text for summary, consequence, remedy and recall_date. *)
Theorem C6_one_recall_record_per_entry
    (vin : string) (rest : list string) (w : World) (data : json)
    (entries : list (list (string * json))) :
  answers server w (recalls_url vin) data ->
  Py.get_method data "Results" (JArr []) = Ok (JArr (map JObj entries)) ->
  exists later_recs w',
    fetch_records server loaded rest "bmw_recalls"
      (after_request (recalls_url vin) w) = (Ok later_recs, w') /\
    fetch_records server loaded (vin :: rest) "bmw_recalls" w =
      (Ok (map (recall_row vin) entries ++ later_recs)%list, w') /\
    List.length (map (recall_row vin) entries) = List.length entries /\
    (entries = [] ->
     fetch_records server loaded (vin :: rest) "bmw_recalls" w =
       (Ok later_recs, w')) /\
    (forall entry, In entry entries ->
       column (recall_row vin entry) "vin" = Some (JStr vin) /\
       forall col key default,
         In (col, (key, default))
            [ ("campaign_number", ("CampaignNumber", "Unknown"));
              ("component", ("Component", "Unknown"));
              ("summary", ("Summary", EmptyString));
              ("consequence", ("Consequence", EmptyString));
              ("remedy", ("Remedy", EmptyString));
              ("recall_date", ("ReportReceivedDate", EmptyString)) ] ->
         (Py.obj_lookup entry key = None ->
          column (recall_row vin entry) col = Some (JStr default)) /\
         (forall v, Py.obj_lookup entry key = Some v ->
                    column (recall_row vin entry) col = Some v)).
Proof.
  intros Hans Hres.
  unfold fetch_records. cbn [String.eqb Ascii.eqb Bool.eqb].
  cbn [recalls_loop]. unfold recalls_try.
  rewrite get_bmw_recalls_unfold, (recalls_reply_answers _ _ _ Hans), Hres.
  cbn [Py.iter]. rewrite append_recalls_objects.
  destruct (recalls_loop_acc rest ([] ++ map (recall_row vin) entries)%list
              (after_request (recalls_url vin) w)) as [rs [w' [H0 H1]]].
  exists rs, w'. rewrite H0, H1.
  split; [reflexivity|]. split; [reflexivity|].
  split; [apply length_map|].
  split; [intros ->; reflexivity|].
  intros entry _. apply recall_row_columns.
Qed.

(* ================================================================= *)
(** ** The validator *)

Lemma validated_decode_rejected (vin : string) (w : World) (e : exn) :
  _validate_bmw_vin vin = Err e ->
  decode_bmw_vin_validated server loaded vin w =
  (Err e, after_log (decode_log_text e) w).
Proof.
  intros H. unfold decode_bmw_vin_validated, try_except, bind, lift.
  rewrite H. reflexivity.
Qed.

(** Claim C8.  The validator rejects every VIN whose length is not 17
    with the error "VIN must be 17 characters long", and every VIN of
    length 17 whose first three characters are none of WBA, WBS, WBY and
    4US with the error "Not a valid BMW VIN prefix".  It is a pure
    function, and a decode that starts with it logs the error and raises
    it without any request being made. *)
Theorem C8_validator_rejects_before_any_request (vin : string) (w : World) :
  (String.length vin <> 17 ->
   _validate_bmw_vin vin =
     Err (Raise ValueError "VIN must be 17 characters long") /\
   exists w',
     decode_bmw_vin_validated server loaded vin w =
       (Err (Raise ValueError "VIN must be 17 characters long"), w') /\
     requests_made w' = requests_made w) /\
  (String.length vin = 17 ->
   ~ In (String.substring 0 3 vin) ["WBA"; "WBS"; "WBY"; "4US"] ->
   _validate_bmw_vin vin =
     Err (Raise ValueError "Not a valid BMW VIN prefix") /\
   exists w',
     decode_bmw_vin_validated server loaded vin w =
       (Err (Raise ValueError "Not a valid BMW VIN prefix"), w') /\
     requests_made w' = requests_made w).
Proof.
  split.
  - intros Hlen.
    assert (Hv : _validate_bmw_vin vin =
                 Err (Raise ValueError "VIN must be 17 characters long")).
    { unfold _validate_bmw_vin. apply Nat.eqb_neq in Hlen. now rewrite Hlen. }
    split; [exact Hv|].
    eexists. split; [apply validated_decode_rejected, Hv | reflexivity].
  - intros Hlen Hpre.
    assert (Hv : _validate_bmw_vin vin =
                 Err (Raise ValueError "Not a valid BMW VIN prefix")).
    { unfold _validate_bmw_vin. apply Nat.eqb_eq in Hlen. rewrite Hlen.
      cbn [negb].
      destruct (existsb (String.eqb (prefix3 vin)) bmw_prefixes) eqn:E;
        [|reflexivity].
      exfalso. apply Hpre. apply existsb_exists in E.
      destruct E as [p [Hin Heq]]. apply String.eqb_eq in Heq.
      unfold prefix3 in Heq. rewrite Heq. exact Hin. }
    split; [exact Hv|].
    eexists. split; [apply validated_decode_rejected, Hv | reflexivity].
Qed.

(** The decode of the source does not call the validator: a VIN of the
    wrong length or prefix is requested like any other. *)
Lemma decode_requests_unvalidated (vin : string) (w : World) :
  exists o w',
    decode_bmw_vin server loaded vin w = (o, w') /\
    requests_made w' = (requests_made w ++ [decode_url vin])%list.
Proof.
  pose proof (decode_requests vin w) as H.
  destruct (decode_bmw_vin server loaded vin w) as [o w'].
  exists o, w'. split; [reflexivity | exact H].
Qed.

(* ================================================================= *)
(** ** Further properties of the decoder *)

(** Property X1.  The validator returns [True] exactly for the VINs of 17
    characters whose first three are WBA, WBS, WBY or 4US; it never
    returns [False]: every other VIN makes it raise. *)
Theorem X1_validator_accepts_exactly_bmw_vins (vin : string) :
  (_validate_bmw_vin vin = Ok true <->
   String.length vin = 17 /\
   In (String.substring 0 3 vin) ["WBA"; "WBS"; "WBY"; "4US"]) /\
  _validate_bmw_vin vin <> Ok false /\
  (forall e, _validate_bmw_vin vin = Err e -> exn_cls e = ValueError).
Proof.
  unfold _validate_bmw_vin.
  destruct (Nat.eqb_spec (String.length vin) 17) as [Hlen|Hlen]; cbn [negb].
  - destruct (existsb (String.eqb (prefix3 vin)) bmw_prefixes) eqn:E; cbn [negb].
    + split; [|split; [discriminate | intros e H; discriminate]].
      split; [intros _|reflexivity]. split; [exact Hlen|].
      apply existsb_exists in E. destruct E as [p [Hin Heq]].
      apply String.eqb_eq in Heq. unfold prefix3 in Heq. rewrite Heq. exact Hin.
    + split; [|split; [discriminate | intros e H; injection H as <-; reflexivity]].
      split; [discriminate|]. intros [_ Hin]. exfalso.
      assert (existsb (String.eqb (prefix3 vin)) bmw_prefixes = true);
        [|congruence].
      apply existsb_exists. exists (prefix3 vin).
      split; [exact Hin | apply String.eqb_refl].
  - split; [|split; [discriminate | intros e H; injection H as <-; reflexivity]].
    split; [discriminate | intros [H _]; contradiction].
Qed.

Lemma raise_for_status_passes (st : Z) (b : option json) :
  passes_status st -> raise_for_status (mkResponse st b) = Ok tt.
Proof.
  unfold passes_status, raise_for_status. cbn [status_code]. intros H.
  destruct (400 <=? st)%Z eqn:E1; [|reflexivity].
  destruct (st <? 600)%Z eqn:E2; [|reflexivity]. lia.
Qed.

Lemma raise_for_status_fails (st : Z) (b : option json) :
  (400 <= st < 600)%Z ->
  raise_for_status (mkResponse st b) =
  Err (Raise RequestException "HTTP error status").
Proof.
  unfold raise_for_status. cbn [status_code]. intros H.
  destruct (400 <=? st)%Z eqn:E1; [|lia].
  destruct (st <? 600)%Z eqn:E2; [reflexivity|lia].
Qed.

(** Property X2.  How a decode fails on the answer of the service.  No
    connection, or a status from 400 to 599 whatever the body: a
    [RequestException], logged as a failed API request.  A passing
    status with a body that is not JSON: the [JSONDecodeError] of the
    library, which the first [except] clause takes as the
    [RequestException] it also is, so it too is logged as a failed API
    request and not as a JSON parsing error.  A JSON object without
    [Results]: a [KeyError], and a JSON value that is no object: a
    [TypeError], both logged as unexpected errors.  Each time one line
    is logged and no record is returned. *)
Theorem X2_decode_failure_by_answer (vin : string) (w : World) :
  let failed_with cls line_start :=
    exists e,
      decode_bmw_vin server loaded vin w =
        (Err e, after_log (line_start ++ exn_msg e)
                  (after_request (decode_url vin) w)) /\
      exn_cls e = cls in
  (forall detail,
     server (requests_made w) (decode_url vin) = NoReply detail ->
     failed_with RequestException "API request failed: ") /\
  (forall st b,
     server (requests_made w) (decode_url vin) = Reply (mkResponse st b) ->
     (400 <= st < 600)%Z ->
     failed_with RequestException "API request failed: ") /\
  (forall st,
     server (requests_made w) (decode_url vin) = Reply (mkResponse st None) ->
     passes_status st ->
     failed_with JSONDecodeError "API request failed: ") /\
  (forall st members,
     server (requests_made w) (decode_url vin)
       = Reply (mkResponse st (Some (JObj members))) ->
     passes_status st ->
     Py.obj_lookup members "Results" = None ->
     failed_with KeyError "Unexpected error: ") /\
  (forall st data,
     server (requests_made w) (decode_url vin)
       = Reply (mkResponse st (Some data)) ->
     passes_status st ->
     (forall members, data <> JObj members) ->
     failed_with TypeError "Unexpected error: ").
Proof.
  cbv zeta. rewrite decode_bmw_vin_unfold.
  split; [|split; [|split; [|split]]].
  - intros detail ->. eexists. split; reflexivity.
  - intros st b -> Hst. unfold decode_reply.
    rewrite (raise_for_status_fails _ _ Hst). eexists. split; reflexivity.
  - intros st -> Hst. unfold decode_reply.
    rewrite (raise_for_status_passes _ _ Hst). eexists. split; reflexivity.
  - intros st members -> Hst Hno. unfold decode_reply.
    rewrite (raise_for_status_passes _ _ Hst).
    cbn [obind response_json body]. unfold vehicle_of_data, project_results.
    cbn [Py.getitem]. rewrite Hno. eexists. split; reflexivity.
  - intros st data -> Hst Hno. unfold decode_reply.
    rewrite (raise_for_status_passes _ _ Hst).
    cbn [obind response_json body]. unfold vehicle_of_data, project_results.
    destruct data; try (eexists; split; reflexivity).
    exfalso. exact (Hno _ eq_refl).
Qed.

Lemma decode_keeps_vin (v : string) (w w' : World) (info : BMWVehicleInfo) :
  decode_bmw_vin server loaded v w = (Ok info, w') -> vin info = v.
Proof.
  intros H. apply decode_ok_inv in H. destruct H as [data [_ [H _]]].
  apply vehicle_of_data_ok in H.
  destruct H as [results [s [y [c [_ [_ [_ [_ ->]]]]]]]]. reflexivity.
Qed.

(** Property X3.  The footprint of a decode: whatever the VIN and the
    outcome, exactly one request is made, to the decode URL of that VIN;
    the clock is not moved; a returned record carries the VIN asked for
    and nothing is logged, and a call that raises logs exactly one
    line. *)
Theorem X3_decode_footprint (v : string) (w : World) :
  exists o w',
    decode_bmw_vin server loaded v w = (o, w') /\
    requests_made w' = (requests_made w ++ [decode_url v])%list /\
    now_isoformat w' = now_isoformat w /\
    match o with
    | Ok info => log w' = log w /\ vin info = v
    | Err e => log w' = (log w ++ [decode_log_text e])%list
    end.
Proof.
  destruct (decode_bmw_vin server loaded v w) as [o w'] eqn:Hdec.
  exists o, w'. split; [reflexivity|].
  pose proof Hdec as Hdec'. rewrite decode_bmw_vin_unfold in Hdec'.
  destruct (decode_reply loaded v _) as [info|e];
    injection Hdec' as <- <-; cbn [after_log after_request requests_made
                                   now_isoformat log].
  - repeat split. eapply decode_keeps_vin. exact Hdec.
  - repeat split.
Qed.

(** Property X4.  A decode does not depend on the moment or on the log:
    in two worlds where the service gives the same answer for the VIN,
    the two calls return the same record, field by field and
    [decoded_date] included, or raise the same exception. *)
Theorem X4_decode_repeatable (v : string) (w1 w2 : World) :
  server (requests_made w1) (decode_url v)
    = server (requests_made w2) (decode_url v) ->
  fst (decode_bmw_vin server loaded v w1)
    = fst (decode_bmw_vin server loaded v w2).
Proof.
  intros H. rewrite !decode_bmw_vin_unfold, H.
  destruct (decode_reply loaded v _); reflexivity.
Qed.

Lemma get_within_length (s : string) (n : nat) :
  n < String.length s -> exists c, String.get n s = Some c.
Proof.
  revert n. induction s as [|c s IH]; intros n H; simpl in H; [lia|].
  destruct n as [|n]; [now exists c|]. apply IH. lia.
Qed.

(** Property X5.  A decode returns a record whenever the VIN has at least
    12 characters and the service answers with a passing status and a
    list of well-formed pairs in which the model year, if it survives the
    discard, converts to an integer.  Only the request is added to the
    world. *)
Theorem X5_decode_succeeds_on_well_formed_answer
    (v : string) (w : World) (data : json) (items : list json) :
  12 <= String.length v ->
  answers server w (decode_url v) data ->
  Py.getitem data "Results" = Ok (JArr items) ->
  Forall well_formed_pair items ->
  (forall results,
     project_results data = Ok results ->
     exists y, Py.int (Py.dict_get results "ModelYear" (JNum 0)) = Ok y) ->
  exists info,
    decode_bmw_vin server loaded v w =
      (Ok info, after_request (decode_url v) w) /\
    vin info = v.
Proof.
  intros Hlen Hans Hres Hwf Hyear.
  rewrite decode_bmw_vin_unfold, (decode_reply_answers _ _ _ Hans).
  destruct (project_items_well_formed items [] Hwf) as [results [Hp Htext]];
    [constructor|].
  rewrite <- (project_results_list _ _ Hres) in Hp.
  unfold vehicle_of_data. rewrite Hp. cbn [obind].
  destruct (values_text_get results "Model" "Unknown" Htext) as [name ->].
  destruct (determine_series_text name) as [s ->]. cbn [obind].
  destruct (Hyear results Hp) as [y ->]. cbn [obind].
  unfold Py.str_index.
  destruct (String.get 11 v) as [c|] eqn:Hc.
  - cbn [obind]. eexists. split; reflexivity.
  - destruct (get_within_length v 11) as [c Hc']; [lia | congruence].
Qed.

(* ================================================================= *)
(** ** Repeated names in an answer *)

Lemma project_items_app (a b : list json) (acc : Py.dict) :
  project_items (a ++ b) acc = obind (project_items a acc) (project_items b).
Proof.
  revert acc. induction a as [|x a IH]; intros acc; cbn [app project_items].
  - reflexivity.
  - destruct (project_item acc x) as [acc1|e]; cbn [obind]; [apply IH | reflexivity].
Qed.

Lemma project_item_silent (n : string) (acc acc' : Py.dict) (item : json) :
  silent_for n item ->
  project_item acc item = Ok acc' ->
  Py.dict_find acc' (JStr n) = Py.dict_find acc (JStr n).
Proof.
  intros Hs. unfold project_item, obind.
  destruct (Py.getitem item "Value") as [v|] eqn:Hv; [|discriminate].
  fold (kept v). destruct (kept v) eqn:Hk.
  - destruct (Py.getitem item "Variable") as [k|] eqn:Hvar; [|discriminate].
    destruct (Py.hashable k); [|discriminate].
    intros H. injection H as <-. rewrite dict_find_set_str.
    destruct (Py.key_eq k (JStr n)) eqn:E; [|reflexivity].
    apply key_eq_str in E. subst k. exfalso. exact (Hs v Hv Hk Hvar).
  - intros H. injection H as <-. reflexivity.
Qed.

Lemma project_items_silent (n : string) (items : list json) (acc acc' : Py.dict) :
  (forall it, In it items -> silent_for n it) ->
  project_items items acc = Ok acc' ->
  Py.dict_find acc' (JStr n) = Py.dict_find acc (JStr n).
Proof.
  revert acc. induction items as [|item items IH]; intros acc Hall; cbn [project_items].
  - intros H. injection H as <-. reflexivity.
  - unfold obind. destruct (project_item acc item) as [acc1|] eqn:E;
      [|discriminate].
    intros H. rewrite (IH acc1); [| |exact H].
    + eapply project_item_silent; [|exact E]. apply Hall. left. reflexivity.
    + intros it Hin. apply Hall. right. exact Hin.
Qed.

Lemma project_items_last_kept
    (name : string) (pre post : list json) (item v : json)
    (acc results : Py.dict) :
  project_items (pre ++ item :: post) acc = Ok results ->
  Py.getitem item "Variable" = Ok (JStr name) ->
  Py.getitem item "Value" = Ok v ->
  kept v = true ->
  (forall it, In it post -> silent_for name it) ->
  Py.dict_find results (JStr name) = Some v.
Proof.
  intros Hp Hvar Hval Hk Hpost.
  rewrite project_items_app in Hp. unfold obind in Hp.
  destruct (project_items pre acc) as [acc1|]; [|discriminate].
  cbn [project_items] in Hp. unfold project_item at 1 in Hp.
  rewrite Hval in Hp. cbn [obind] in Hp. fold (kept v) in Hp.
  rewrite Hk, Hvar in Hp. cbn [obind Py.hashable] in Hp.
  rewrite (project_items_silent name post _ _ Hpost Hp), dict_find_set_str.
  cbn [Py.key_eq]. now rewrite String.eqb_refl.
Qed.

(** Property X6.  When the answer names an attribute more than once, the
    last pair that passes the filter wins: if a pair named [name] with a
    kept value [v] is followed only by pairs that store nothing under
    [name], the projected dict maps [name] to [v], whatever came
    before. *)
Theorem X6_last_kept_pair_wins
    (data : json) (name : string) (pre post : list json) (item v : json)
    (results : Py.dict) :
  Py.getitem data "Results" = Ok (JArr (pre ++ item :: post)) ->
  project_results data = Ok results ->
  Py.getitem item "Variable" = Ok (JStr name) ->
  Py.getitem item "Value" = Ok v ->
  kept v = true ->
  (forall it, In it post -> silent_for name it) ->
  Py.dict_find results (JStr name) = Some v /\
  forall default, Py.dict_get results name default = v.
Proof.
  intros Hres Hp Hvar Hval Hk Hpost.
  rewrite (project_results_list _ _ Hres) in Hp.
  pose proof (project_items_last_kept _ _ _ _ _ _ _ Hp Hvar Hval Hk Hpost) as H.
  split; [exact H|]. intros default. unfold Py.dict_get. now rewrite H.
Qed.

(** Property X7.  The record carries the values of the answer: with a
    pair named [name] whose kept value [v] is followed by no other kept
    pair of that name, a returned record has [v] as model name, body
    type, engine type, transmission, drive type or production date when
    [name] is the attribute behind that field, and the integer [int(v)]
    as model year when [name] is [ModelYear]. *)
Theorem X7_record_fields_carry_answer_values
    (v : string) (w w' : World) (data : json) (info : BMWVehicleInfo)
    (name : string) (pre post : list json) (item value : json) :
  answers server w (decode_url v) data ->
  Py.getitem data "Results" = Ok (JArr (pre ++ item :: post)) ->
  decode_bmw_vin server loaded v w = (Ok info, w') ->
  Py.getitem item "Variable" = Ok (JStr name) ->
  Py.getitem item "Value" = Ok value ->
  kept value = true ->
  (forall it, In it post -> silent_for name it) ->
  (name = "Model" ->
   model_name info = value /\
   _determine_bmw_series value = Ok (series info)) /\
  (name = "ModelYear" -> Py.int value = Ok (model_year info)) /\
  (name = "BodyClass" -> body_type info = value) /\
  (name = "EngineConfiguration" -> engine_type info = value) /\
  (name = "TransmissionStyle" -> transmission info = value) /\
  (name = "DriveType" -> drive_type info = value) /\
  (name = "DateProduced" -> production_date info = value).
Proof.
  intros Hans Hres Hdec Hvar Hval Hk Hpost.
  rewrite decode_bmw_vin_unfold, (decode_reply_answers _ _ _ Hans) in Hdec.
  destruct (vehicle_of_data loaded v data) as [info'|] eqn:Hv;
    [|discriminate].
  injection Hdec as -> _.
  apply vehicle_of_data_ok in Hv.
  destruct Hv as [results [s [y [c [Hp [Hs [Hy [_ ->]]]]]]]].
  rewrite (project_results_list _ _ Hres) in Hp.
  pose proof (project_items_last_kept _ _ _ _ _ _ _ Hp Hvar Hval Hk Hpost) as H.
  assert (Hget : forall default, Py.dict_get results name default = value).
  { intros default. unfold Py.dict_get. now rewrite H. }
  cbn [model_name body_type engine_type transmission drive_type
       production_date model_year series].
  split; [intros ->; rewrite Hget in Hs; rewrite Hget; split;
          [reflexivity | exact Hs]|].
  split; [intros ->; rewrite Hget in Hy; exact Hy|].
  repeat split; intros ->; apply Hget.
Qed.

(* ================================================================= *)
(** ** Further properties of [fetch_records] *)

Lemma decode_world (v : string) (w w' : World) (o : outcome BMWVehicleInfo) :
  decode_bmw_vin server loaded v w = (o, w') ->
  w' = match o with
       | Ok _ => after_request (decode_url v) w
       | Err e => after_log (decode_log_text e) (after_request (decode_url v) w)
       end.
Proof.
  rewrite decode_bmw_vin_unfold.
  destruct (decode_reply loaded v _); intros H; injection H as <- <-; reflexivity.
Qed.

(** The records of the vehicles table are those of the VINs whose decode
    returned, in input order; each failure costs two log lines. *)
Lemma vehicles_loop_shape (vins : list string) (w w' : World) (recs : list record) :
  vehicles_loop server loaded vins [] w = (Ok recs, w') ->
  exists infos,
    recs = map to_record infos /\
    subseq (map vin infos) vins /\
    now_isoformat w' = now_isoformat w /\
    List.length (log w') + 2 * List.length infos
      = List.length (log w) + 2 * List.length vins.
Proof.
  revert w w' recs. induction vins as [|v rest IH]; intros w w' recs.
  - cbn. intros H. injection H as <- <-. exists []. cbn.
    repeat split. constructor.
  - rewrite vehicles_loop_cons.
    destruct (decode_bmw_vin server loaded v w) as [[info|e] w1] eqn:Hdec.
    + pose proof (decode_keeps_vin _ _ _ _ Hdec) as Hvin.
      apply decode_world in Hdec. subst w1.
      rewrite vehicles_loop_acc.
      destruct (vehicles_loop server loaded rest [] _) as [[rs|e] w2] eqn:Hrest;
        [|discriminate].
      intros H. injection H as <- <-.
      destruct (IH _ _ _ Hrest) as [infos [-> [Hsub [Hclock Hlog]]]].
      exists (info :: infos). cbn [map app].
      split; [reflexivity|]. split; [rewrite Hvin; constructor; exact Hsub|].
      split; [exact Hclock|].
      cbn [after_request log] in Hlog. cbn [List.length]. lia.
    + apply decode_world in Hdec. subst w1.
      intros Hrest.
      destruct (IH _ _ _ Hrest) as [infos [-> [Hsub [Hclock Hlog]]]].
      exists infos. split; [reflexivity|].
      split; [constructor; exact Hsub|].
      split; [exact Hclock|].
      cbn [after_request after_log log] in Hlog.
      rewrite !length_app in Hlog. cbn [List.length] in *. lia.
Qed.

Lemma recall_record_ok (v : string) (recall : json) (r : record) :
  recall_record v recall = Ok r ->
  exists entry, recall = JObj entry /\ r = recall_row v entry.
Proof.
  destruct recall; try discriminate.
  rewrite recall_record_object. intros H. injection H as <-.
  eexists. split; reflexivity.
Qed.

Lemma append_recalls_keeps (P : record -> Prop) (v : string)
    (items : list json) (acc recs : list record) (o : outcome unit) :
  (forall entry, P (recall_row v entry)) ->
  Forall P acc ->
  append_recalls v items acc = (recs, o) ->
  Forall P recs.
Proof.
  intros Hrow. revert acc. induction items as [|item items IH]; intros acc Hacc;
    cbn [append_recalls].
  - intros H. injection H as <- _. exact Hacc.
  - destruct (recall_record v item) as [r|e] eqn:Hr.
    + apply IH. apply Forall_app. split; [exact Hacc|].
      apply recall_record_ok in Hr. destruct Hr as [entry [_ ->]].
      constructor; [apply Hrow | constructor].
    + intros H. injection H as <- _. exact Hacc.
Qed.

(** Every record of the recalls table is the row of some raw entry for
    one of the VINs. *)
Lemma recalls_loop_keeps (P : record -> Prop) (vins : list string)
    (acc recs : list record) (w w' : World) :
  (forall v entry, In v vins -> P (recall_row v entry)) ->
  Forall P acc ->
  recalls_loop server vins acc w = (Ok recs, w') ->
  Forall P recs.
Proof.
  revert acc w. induction vins as [|v rest IH]; intros acc w Hrow Hacc;
    cbn [recalls_loop].
  - intros H. injection H as <- _. exact Hacc.
  - unfold recalls_try.
    assert (Hrest : forall v' entry, In v' rest -> P (recall_row v' entry))
      by (intros; apply Hrow; right; assumption).
    assert (Hv : forall entry, P (recall_row v entry))
      by (intros; apply Hrow; left; reflexivity).
    destruct (get_bmw_recalls server v w) as [[recalls|e] w1].
    + destruct (Py.iter recalls) as [items|e].
      * destruct (append_recalls v items acc) as [acc1 o] eqn:Happ.
        pose proof (append_recalls_keeps P v items acc acc1 o Hv Hacc Happ) as H1.
        destruct o as [[]|e]; unfold bind, logger_error; apply IH; assumption.
      * unfold bind, logger_error. apply IH; assumption.
    + unfold bind, logger_error. apply IH; assumption.
Qed.

(** Property X8.  Whatever the table and the answers of the service, every
    record that [fetch_records] returns has exactly the columns that
    [get_columns] declares for the table, in the declared order. *)
Theorem X8_records_have_the_declared_columns
    (vins : list string) (table_name : string) (w w' : World)
    (recs : list record) :
  fetch_records server loaded vins table_name w = (Ok recs, w') ->
  Forall (fun r => map fst r = map fst (get_columns table_name)) recs.
Proof.
  unfold fetch_records, get_columns.
  destruct (table_name =? "bmw_vehicles").
  - intros H. apply vehicles_loop_shape in H.
    destruct H as [infos [-> _]]. apply Forall_forall.
    intros r Hin. apply in_map_iff in Hin. destruct Hin as [info [<- _]].
    reflexivity.
  - destruct (table_name =? "bmw_recalls").
    + apply recalls_loop_keeps; [|constructor]. intros; reflexivity.
    + intros H. injection H as <- _. constructor.
Qed.

(** Property X9.  Every primary-key column that [get_primary_keys] names
    for a table is a column that [get_columns] declares for it, and every
    record that [fetch_records] returns for the table carries that
    column; its [vin] column is the text of one of the configured
    VINs. *)
Theorem X9_primary_keys_are_declared_and_present
    (vins : list string) (table_name : string) (w w' : World)
    (recs : list record) :
  fetch_records server loaded vins table_name w = (Ok recs, w') ->
  (forall table keys key,
     In (table, keys) get_primary_keys -> In key keys ->
     In key (map fst (get_columns table))) /\
  Forall (fun r =>
            (exists v, In v vins /\ column r "vin" = Some (JStr v)) /\
            forall keys key,
              In (table_name, keys) get_primary_keys -> In key keys ->
              column r key <> None) recs.
Proof.
  intros Hfetch. split.
  { intros table keys key Hin Hkey. unfold get_primary_keys in Hin.
    destruct Hin as [Hin|[Hin|[]]]; injection Hin as <- <-; cbn in Hkey |- *;
      intuition (subst; auto). }
  revert Hfetch. unfold fetch_records.
  destruct (String.eqb_spec table_name "bmw_vehicles") as [->|Hv].
  - intros H. apply vehicles_loop_shape in H.
    destruct H as [infos [-> [Hsub _]]]. apply Forall_forall.
    intros r Hin. apply in_map_iff in Hin. destruct Hin as [info [<- Hin]].
    split.
    + exists (vin info). split; [|reflexivity].
      assert (Hincl : forall (a b : list string), subseq a b ->
                        forall x, In x a -> In x b).
      { clear. intros a b H. induction H; intros y Hy; cbn in *; intuition. }
      apply (Hincl _ _ Hsub). apply in_map. exact Hin.
    + intros keys key Hk Hkey. unfold get_primary_keys in Hk.
      destruct Hk as [Hk|[Hk|[]]]; [|discriminate Hk].
      injection Hk as <-. destruct Hkey as [<-|[]]. discriminate.
  - destruct (String.eqb_spec table_name "bmw_recalls") as [->|Hr].
    + apply recalls_loop_keeps; [|constructor].
      intros v entry Hin. split.
      * exists v. split; [exact Hin | reflexivity].
      * intros keys key Hk Hkey. unfold get_primary_keys in Hk.
        destruct Hk as [Hk|[Hk|[]]]; [discriminate Hk|].
        injection Hk as <-.
        destruct Hkey as [<-|[<-|[]]]; cbn; discriminate.
    + intros H. injection H as <- _. constructor.
Qed.


(** Property X11.  For the vehicles table every VIN either gives one
    record or is accounted for in the log: each VIN whose decode raised
    adds exactly two lines (one by the decoder, one by the driver), and
    the other VINs add none.  The clock is not moved. *)
Theorem X11_vehicle_failures_are_all_logged
    (vins : list string) (w w' : World) (recs : list record) :
  fetch_records server loaded vins "bmw_vehicles" w = (Ok recs, w') ->
  List.length recs <= List.length vins /\
  List.length (log w') =
    List.length (log w) + 2 * (List.length vins - List.length recs) /\
  now_isoformat w' = now_isoformat w.
Proof.
  unfold fetch_records. cbn [String.eqb Ascii.eqb Bool.eqb].
  intros H. apply vehicles_loop_shape in H.
  destruct H as [infos [-> [Hsub [Hclock Hlog]]]].
  rewrite length_map.
  assert (Hle : List.length infos <= List.length vins).
  { assert (Hgen : forall (a b : list string), subseq a b ->
                     List.length a <= List.length b).
    { clear. intros a b H. induction H; cbn; lia. }
    rewrite <- (length_map vin infos). apply Hgen. exact Hsub. }
  repeat split; [exact Hle | lia | exact Hclock].
Qed.

(* ================================================================= *)
(** ** Further properties of the recalls path *)

Lemma get_bmw_recalls_world (v : string) (w w' : World) (o : outcome json) :
  get_bmw_recalls server v w = (o, w') ->
  w' = match o with
       | Ok _ => after_request (recalls_url v) w
       | Err e =>
           after_log ("Error fetching recalls: " ++ exn_msg e)
             (after_request (recalls_url v) w)
       end.
Proof.
  rewrite get_bmw_recalls_unfold.
  destruct (recalls_reply _); intros H; injection H as <- <-; reflexivity.
Qed.

Lemma recalls_loop_total (vins : list string) (acc : list record) (w : World) :
  exists recs w',
    recalls_loop server vins acc w = (Ok recs, w') /\
    requests_made w' = (requests_made w ++ map recalls_url vins)%list /\
    now_isoformat w' = now_isoformat w.
Proof.
  revert acc w. induction vins as [|v rest IH]; intros acc w.
  - exists acc, w. cbn. rewrite app_nil_r. auto.
  - cbn [recalls_loop]. unfold recalls_try.
    destruct (get_bmw_recalls server v w) as [[recalls|e] w1] eqn:Hget;
      apply get_bmw_recalls_world in Hget; subst w1.
    + destruct (Py.iter recalls) as [items|e].
      * destruct (append_recalls v items acc) as [acc1 [[]|e]];
          unfold bind, logger_error.
        -- destruct (IH acc1 (after_request (recalls_url v) w))
             as [recs [w' [-> [Hr Hc]]]].
           exists recs, w'. split; [reflexivity|].
           cbn [after_request requests_made now_isoformat] in Hr, Hc.
           rewrite Hr, <- app_assoc. auto.
        -- match goal with |- context [recalls_loop server rest acc1 ?w0] =>
             destruct (IH acc1 w0) as [recs [w' [-> [Hr Hc]]]] end.
           exists recs, w'. split; [reflexivity|].
           cbn [after_request after_log requests_made now_isoformat] in Hr, Hc.
           rewrite Hr, <- app_assoc. auto.
      * unfold bind, logger_error.
        match goal with |- context [recalls_loop server rest acc ?w0] =>
          destruct (IH acc w0) as [recs [w' [-> [Hr Hc]]]] end.
        exists recs, w'. split; [reflexivity|].
        cbn [after_request after_log requests_made now_isoformat] in Hr, Hc.
        rewrite Hr, <- app_assoc. auto.
    + unfold bind, logger_error.
      match goal with |- context [recalls_loop server rest acc ?w0] =>
        destruct (IH acc w0) as [recs [w' [-> [Hr Hc]]]] end.
      exists recs, w'. split; [reflexivity|].
      cbn [after_request after_log requests_made now_isoformat] in Hr, Hc.
      rewrite Hr, <- app_assoc. auto.
Qed.

(** Property X12.  For the recalls table [fetch_records] never raises: it
    requests the recalls of every configured VIN, once and in input
    order, whatever fails on the way, and requests nothing else.  Every
    record it returns is the complete row of one raw entry for one of
    the VINs. *)
Theorem X12_recall_batch_never_aborts (vins : list string) (w : World) :
  exists recs w',
    fetch_records server loaded vins "bmw_recalls" w = (Ok recs, w') /\
    requests_made w' = (requests_made w ++ map recalls_url vins)%list /\
    now_isoformat w' = now_isoformat w /\
    Forall (fun r => exists v entry, In v vins /\ r = recall_row v entry) recs.
Proof.
  unfold fetch_records. cbn [String.eqb Ascii.eqb Bool.eqb].
  destruct (recalls_loop_total vins [] w) as [recs [w' [H [Hr Hc]]]].
  exists recs, w'. rewrite H. repeat split; try assumption.
  eapply recalls_loop_keeps; [| |exact H]; [|constructor].
  intros v entry Hin. exists v, entry. split; [exact Hin | reflexivity].
Qed.

Lemma recall_record_not_object (v : string) (bad : json) :
  (forall entry, bad <> JObj entry) ->
  recall_record v bad =
  Err (Raise AttributeError "object has no attribute 'get'").
Proof.
  intros H. destruct bad; try reflexivity. exfalso. exact (H _ eq_refl).
Qed.

Lemma append_recalls_until_bad (v : string) (good : list (list (string * json)))
    (bad : json) (others : list json) (acc : list record) :
  (forall entry, bad <> JObj entry) ->
  append_recalls v (map JObj good ++ bad :: others) acc =
  ((acc ++ map (recall_row v) good)%list,
   Err (Raise AttributeError "object has no attribute 'get'")).
Proof.
  intros Hbad. revert acc. induction good as [|entry good IH]; intros acc.
  - cbn [map app append_recalls]. rewrite (recall_record_not_object _ _ Hbad).
    now rewrite app_nil_r.
  - cbn [map app append_recalls]. rewrite recall_record_object, IH.
    now rewrite <- app_assoc.
Qed.

(** Property X13.  The recalls of a VIN are appended one by one: when an
    entry of the answer is not an object, the rows of the entries before
    it are kept in the output, the entries after it are dropped, the VIN
    is logged, and the VINs after it are still fetched. *)
Theorem X13_recalls_before_a_bad_entry_are_kept
    (v : string) (rest : list string) (w : World) (data : json)
    (good : list (list (string * json))) (bad : json) (others : list json) :
  answers server w (recalls_url v) data ->
  Py.get_method data "Results" (JArr [])
    = Ok (JArr (map JObj good ++ bad :: others)) ->
  (forall entry, bad <> JObj entry) ->
  exists e later_recs w',
    exn_cls e = AttributeError /\
    fetch_records server loaded rest "bmw_recalls"
      (after_log (recall_skip_line v e) (after_request (recalls_url v) w))
      = (Ok later_recs, w') /\
    fetch_records server loaded (v :: rest) "bmw_recalls" w =
      (Ok (map (recall_row v) good ++ later_recs)%list, w').
Proof.
  intros Hans Hres Hbad.
  exists (Raise AttributeError "object has no attribute 'get'").
  unfold fetch_records. cbn [String.eqb Ascii.eqb Bool.eqb].
  cbn [recalls_loop]. unfold recalls_try.
  rewrite get_bmw_recalls_unfold, (recalls_reply_answers _ _ _ Hans), Hres.
  cbn [Py.iter]. rewrite (append_recalls_until_bad _ _ _ _ _ Hbad).
  unfold bind, logger_error.
  destruct (recalls_loop_acc rest ([] ++ map (recall_row v) good)%list
              (after_log
                 (recall_skip_line v
                    (Raise AttributeError "object has no attribute 'get'"))
                 (after_request (recalls_url v) w))) as [rs [w' [H0 H1]]].
  exists rs, w'. split; [reflexivity|].
  unfold recall_skip_line in *. rewrite H0, H1.
  split; reflexivity.
Qed.

(** Property X14.  What [get_bmw_recalls] returns and how it fails.  From
    a JSON object it returns the [Results] member as it is, of whatever
    type, and the empty list when there is none; only the request is
    added to the world.  No connection or a status from 400 to 599 is a
    [RequestException], a body that is not JSON a [JSONDecodeError], a
    JSON value that is no object an [AttributeError]; each is logged in
    one line and raised again. *)
Theorem X14_recall_fetch_by_answer (v : string) (w : World) :
  let failed_with cls :=
    exists e,
      get_bmw_recalls server v w =
        (Err e, after_log ("Error fetching recalls: " ++ exn_msg e)
                  (after_request (recalls_url v) w)) /\
      exn_cls e = cls in
  (forall st members,
     server (requests_made w) (recalls_url v)
       = Reply (mkResponse st (Some (JObj members))) ->
     passes_status st ->
     get_bmw_recalls server v w =
       (Ok (match Py.obj_lookup members "Results" with
            | Some results => results
            | None => JArr []
            end),
        after_request (recalls_url v) w)) /\
  (forall detail,
     server (requests_made w) (recalls_url v) = NoReply detail ->
     failed_with RequestException) /\
  (forall st b,
     server (requests_made w) (recalls_url v) = Reply (mkResponse st b) ->
     (400 <= st < 600)%Z ->
     failed_with RequestException) /\
  (forall st,
     server (requests_made w) (recalls_url v) = Reply (mkResponse st None) ->
     passes_status st ->
     failed_with JSONDecodeError) /\
  (forall st data,
     server (requests_made w) (recalls_url v)
       = Reply (mkResponse st (Some data)) ->
     passes_status st ->
     (forall members, data <> JObj members) ->
     failed_with AttributeError).
Proof.
  cbv zeta. rewrite get_bmw_recalls_unfold.
  split; [|split; [|split; [|split]]].
  - intros st members -> Hst. unfold recalls_reply.
    rewrite (raise_for_status_passes _ _ Hst). reflexivity.
  - intros detail ->. eexists. split; reflexivity.
  - intros st b -> Hst. unfold recalls_reply.
    rewrite (raise_for_status_fails _ _ Hst). eexists. split; reflexivity.
  - intros st -> Hst. unfold recalls_reply.
    rewrite (raise_for_status_passes _ _ Hst). eexists. split; reflexivity.
  - intros st data -> Hst Hno. unfold recalls_reply.
    rewrite (raise_for_status_passes _ _ Hst).
    cbn [obind response_json body].
    destruct data; try (eexists; split; reflexivity).
    exfalso. exact (Hno _ eq_refl).
Qed.

(* ================================================================= *)
(** ** The connection test and [update] *)

Lemma test_connection_unfold (config : Config) (w : World) :
  test_connection server loaded config w =
  match first_item (config_vins config ["WBA3A5C51CF256651"]) with
  | Err e => (Ok false, after_log ("Connection test failed: " ++ exn_msg e) w)
  | Ok v =>
      match decode_bmw_vin server loaded v w with
      | (Ok _, w1) => (Ok true, w1)
      | (Err e, w1) =>
          (Ok false, after_log ("Connection test failed: " ++ exn_msg e) w1)
      end
  end.
Proof.
  unfold test_connection, try_except, bind, lift, ret, logger_error.
  destruct (first_item _) as [v|e]; [|reflexivity].
  destruct (decode_bmw_vin server loaded v w) as [[info|e] w1]; reflexivity.
Qed.

(** Property X15.  The connection test never raises.  It decodes the
    first configured VIN, or the VIN written in the source when the
    configuration has no list, and answers [True] exactly when that
    decode returns; a decode that raises is logged once more and
    answered [False].  With an empty list it answers [False] without any
    request, the indexing error being caught and logged. *)
Theorem X15_test_connection_reports_the_first_decode
    (config : Config) (w : World) :
  (exists b w', test_connection server loaded config w = (Ok b, w')) /\
  (vins_entry config = Some [] ->
   exists e,
     exn_cls e = IndexError /\
     test_connection server loaded config w =
       (Ok false, after_log ("Connection test failed: " ++ exn_msg e) w)) /\
  (forall v,
     (exists rest, vins_entry config = Some (v :: rest)) \/
     (vins_entry config = None /\ v = "WBA3A5C51CF256651") ->
     (forall info w1,
        decode_bmw_vin server loaded v w = (Ok info, w1) ->
        test_connection server loaded config w = (Ok true, w1)) /\
     (forall e w1,
        decode_bmw_vin server loaded v w = (Err e, w1) ->
        test_connection server loaded config w =
          (Ok false, after_log ("Connection test failed: " ++ exn_msg e) w1))).
Proof.
  rewrite test_connection_unfold. unfold config_vins.
  split; [|split].
  - destruct (first_item _) as [v|e]; [|eexists; eexists; reflexivity].
    destruct (decode_bmw_vin server loaded v w) as [[info|e] w1];
      eexists; eexists; reflexivity.
  - intros ->. eexists. split; [|reflexivity]. reflexivity.
  - intros v [[rest ->] | [-> ->]]; cbn [first_item];
      (split; [intros info w1 -> | intros e w1 ->]; reflexivity).
Qed.

Section UpdateFacts.

Variable repr_record : record -> string.

(** The world after the information lines of [records]. *)
Lemma emit_records_run (table : string) (records : list record) (w : World) :
  exists w',
    emit_records repr_record table records w
      = (Ok (map (Upsert table) records), w') /\
    requests_made w' = requests_made w /\
    now_isoformat w' = now_isoformat w.
Proof.
  revert w. induction records as [|r rest IH]; intros w; cbn [emit_records map].
  - exists w. repeat split.
  - unfold bind at 1, logger_info at 1.
    destruct (IH (after_log ("Record: " ++ repr_record r) w)) as [w' [H [Hr Hc]]].
    unfold bind, ret. rewrite H. exists w'. repeat split; assumption.
Qed.

Lemma firstn_subseq {A : Type} (n : nat) (l : list A) : subseq (firstn n l) l.
Proof.
  revert n. induction l as [|x l IH]; intros n.
  - rewrite firstn_nil. constructor.
  - destruct n as [|n]; cbn [firstn].
    + constructor. apply (IH 0).
    + constructor. apply IH.
Qed.

Lemma subseq_trans {A : Type} (a b c : list A) :
  subseq a b -> subseq b c -> subseq a c.
Proof.
  intros Hab Hbc. revert a Hab.
  induction Hbc as [|x b c Hbc IH|x b c Hbc IH]; intros a Hab.
  - exact Hab.
  - inversion Hab as [|y a' b' Ha|y a' b' Ha]; subst.
    + constructor. apply IH. exact Ha.
    + apply subseq_drop. apply IH. exact Ha.
  - apply subseq_drop. apply IH. exact Hab.
Qed.

Lemma subseq_map {A B : Type} (f : A -> B) (a b : list A) :
  subseq a b -> subseq (map f a) (map f b).
Proof. intros H. induction H; cbn [map]; constructor; assumption. Qed.

(** Property X16.  When the connection test fails, [update] yields
    nothing at all, not even the checkpoint: after the one request of the
    test it logs the failure and ends, whatever [configuration] and
    [state] are. *)
Theorem X16_update_yields_nothing_without_connection
    (configuration state : json) (w w1 : World) (e : exn) :
  decode_bmw_vin server loaded "5UXCW2C09L9C15882" w = (Err e, w1) ->
  exists w',
    update server loaded repr_record configuration state w = (Ok [], w') /\
    requests_made w' =
      (requests_made w ++ [decode_url "5UXCW2C09L9C15882"])%list /\
    log w' =
      (log w ++ [decode_log_text e;
                 ("Connection test failed: " ++ exn_msg e)%string;
                 "Connection test failed"])%list.
Proof.
  intros Hdec. unfold update. unfold bind at 1.
  rewrite test_connection_unfold. cbn [config_vins vins_entry first_item].
  rewrite Hdec. apply decode_world in Hdec. subst w1.
  unfold bind, logger_error, ret. eexists. split; [reflexivity|].
  cbn [after_log after_request requests_made log].
  split; [reflexivity|]. rewrite <- !app_assoc. reflexivity.
Qed.

(** Property X17.  When the connection test passes, [update] never
    raises and yields upserts into [bmw_vehicles] followed by exactly
    one checkpoint that carries the [state] it was given.  The upserts
    are the first two records of the vehicles table for the two VINs
    written in the source, in order.  Three decode requests are made, the
    first VIN being decoded by the test and again by the sync; recalls
    are never requested and [configuration] is never read. *)
Theorem X17_update_upserts_then_checkpoints
    (configuration state : json) (w w1 : World) (info : BMWVehicleInfo) :
  decode_bmw_vin server loaded "5UXCW2C09L9C15882" w = (Ok info, w1) ->
  exists recs w2 w',
    fetch_records server loaded ["5UXCW2C09L9C15882"; "WBAHF3C03NWX42344"]
      "bmw_vehicles"
      (after_log "Syncing table: bmw_vehicles"
         (after_log "Connection test successful" w1)) = (Ok recs, w2) /\
    update server loaded repr_record configuration state w =
      (Ok (map (Upsert "bmw_vehicles") (firstn 2 recs) ++ [Checkpoint state])%list,
       w') /\
    List.length (firstn 2 recs) <= 2 /\
    subseq (map (fun r => column r "vin") (firstn 2 recs))
           [Some (JStr "5UXCW2C09L9C15882"); Some (JStr "WBAHF3C03NWX42344")] /\
    requests_made w' =
      (requests_made w ++ [decode_url "5UXCW2C09L9C15882";
                           decode_url "5UXCW2C09L9C15882";
                           decode_url "WBAHF3C03NWX42344"])%list.
Proof.
  intros Hdec. unfold update. unfold bind at 1.
  rewrite test_connection_unfold. cbn [config_vins vins_entry first_item].
  rewrite Hdec. apply decode_world in Hdec. subst w1.
  unfold bind at 1, logger_info at 1. unfold bind at 1.
  unfold get_tables. cbn [sync_tables].
  unfold bind at 1, logger_info at 1. unfold bind at 1.
  cbn [String.append].
  set (w0 := after_log "Syncing table: bmw_vehicles"
               (after_log "Connection test successful"
                  (after_request (decode_url "5UXCW2C09L9C15882") w))).
  destruct (vehicles_loop_total ["5UXCW2C09L9C15882"; "WBAHF3C03NWX42344"] w0)
    as [recs [w2 [Hfetch [Hreq _]]]].
  assert (Hfetch' : fetch_records server loaded
                      ["5UXCW2C09L9C15882"; "WBAHF3C03NWX42344"]
                      "bmw_vehicles" w0 = (Ok recs, w2)) by exact Hfetch.
  rewrite Hfetch'.
  unfold bind at 1, logger_info at 1. unfold bind at 1.
  match goal with |- context [emit_records repr_record ?t ?rs ?wx] =>
    destruct (emit_records_run t rs wx) as [w3 [Hemit [Hreq3 _]]] end.
  rewrite Hemit. unfold bind, ret.
  exists recs, w2. eexists. split; [reflexivity|].
  split; [rewrite app_nil_r; reflexivity|].
  split; [apply firstn_le_length|].
  split.
  - pose proof (vehicles_loop_shape _ _ _ _ Hfetch) as [infos [-> [Hsub _]]].
    eapply subseq_trans; [apply subseq_map, firstn_subseq|].
    rewrite map_map. cbn [to_record column String.eqb Ascii.eqb Bool.eqb].
    rewrite <- (map_map vin (fun v => Some (JStr v))).
    apply (subseq_map (fun v => Some (JStr v)) _ _ Hsub).
  - rewrite Hreq3. cbn [after_log requests_made]. rewrite Hreq.
    unfold w0. cbn [after_log after_request requests_made map].
    rewrite <- app_assoc. reflexivity.
Qed.

End UpdateFacts.

End DecoderFacts.

(* ================================================================= *)
(** ** Instances on sample inputs *)

Lemma sample_decode :
  decode_bmw_vin sample_server import_world sample_vin world_10h00 =
  (Ok sample_info, after_request (decode_url sample_vin) world_10h00).
Proof. vm_compute. reflexivity. Qed.

Lemma C7_witness :
  decode_bmw_vin sample_server import_world sample_vin world_10h00 =
    (Ok sample_info, after_request (decode_url sample_vin) world_10h00) /\
  exists c,
    String.get 11 sample_vin = Some c /\
    manufacturing_plant sample_info =
      table_get _plant_codes (String c EmptyString) "Unknown" /\
    (c = "C"%char -> manufacturing_plant sample_info = "Munich, Germany") /\
    (c = "Z"%char -> manufacturing_plant sample_info = "Unknown") /\
    ((forall entry, In entry _plant_codes -> fst entry <> String c EmptyString) ->
     manufacturing_plant sample_info = "Unknown").
Proof.
  split; [vm_compute; reflexivity|].
  apply (C7_manufacturing_plant_from_position_11 sample_server import_world
           sample_vin world_10h00
           (after_request (decode_url sample_vin) world_10h00) sample_info).
  vm_compute. reflexivity.
Defined.

Lemma C10_witness :
  "crypto" <> "bmw_vehicles" /\ "crypto" <> "bmw_recalls" /\
  fetch_records sample_server import_world [sample_vin] "crypto" world_10h00 =
    (Ok [], world_10h00).
Proof.
  split; [discriminate|]. split; [discriminate|].
  apply (C10_unknown_table_fetches_nothing sample_server import_world
           [sample_vin] "crypto" world_10h00); discriminate.
Defined.

(** Claim C1.  The record type evaluates [datetime.now().isoformat()]
    once, when the class is defined, and [decode_bmw_vin] passes no
    [decoded_date]: with the class defined at 09:00:00, a decode at
    10:00:00 and a second one at 10:05:00 both return a record whose
    [decoded_date] is the 09:00:00 text, equal to each other and to
    neither moment of construction. *)
Theorem C1_decoded_date_is_shared_not_per_call :
  exists info1 w1 info2 w2,
    decode_bmw_vin sample_server import_world sample_vin world_10h00
      = (Ok info1, w1) /\
    decode_bmw_vin sample_server import_world other_vin
      (later "2024-05-01T10:05:00" w1) = (Ok info2, w2) /\
    now_isoformat world_10h00 <> now_isoformat (later "2024-05-01T10:05:00" w1) /\
    decoded_date info1 = now_isoformat import_world /\
    decoded_date info2 = now_isoformat import_world /\
    decoded_date info1 = decoded_date info2 /\
    decoded_date info1 <> now_isoformat world_10h00 /\
    decoded_date info2 <> now_isoformat (later "2024-05-01T10:05:00" w1).
Proof.
  eexists. eexists. eexists. eexists.
  split; [vm_compute; reflexivity|].
  split; [vm_compute; reflexivity|].
  repeat split; try reflexivity; vm_compute; discriminate.
Qed.

Lemma sample_answers (vin : string) :
  answers sample_server world_10h00 (decode_url vin) sample_body.
Proof. exists 200%Z. split; reflexivity. Qed.

Lemma bad_year_answers (vin : string) :
  answers bad_year_server world_10h00 (decode_url vin) bad_year_body.
Proof. exists 200%Z. split; reflexivity. Qed.

Lemma pair_of_well_formed (variable value : string) :
  well_formed_pair (pair_of variable value).
Proof.
  exists variable, (JStr value). repeat split; try reflexivity.
  right. now exists value.
Qed.

Lemma sample_results_well_formed : Forall well_formed_pair sample_results.
Proof.
  unfold sample_results.
  repeat (constructor; [apply pair_of_well_formed|]).
  constructor; [|constructor].
  exists "DateProduced", JNull. repeat split; try reflexivity. now left.
Qed.

Lemma sample_discards (name : string) :
  name = "BodyClass" \/ name = "DriveType" ->
  all_discarded name sample_results.
Proof.
  intros Hname item Hin Hvar. unfold sample_results in Hin.
  repeat (destruct Hin as [<-|Hin];
          [ destruct Hname as [-> | ->]; vm_compute in Hvar;
            try discriminate Hvar;
            (eexists; split; [reflexivity|]; (now left) || (now right)) |]).
  destruct Hin.
Qed.

Lemma C2_witness :
  answers sample_server world_10h00 (decode_url sample_vin) sample_body /\
  Py.getitem sample_body "Results" = Ok (JArr sample_results) /\
  decode_bmw_vin sample_server import_world sample_vin world_10h00 =
    (Ok sample_info, after_request (decode_url sample_vin) world_10h00) /\
  body_type sample_info = JStr "Unknown" /\
  drive_type sample_info = JStr "Unknown".
Proof.
  split; [apply sample_answers|].
  split; [reflexivity|].
  split; [vm_compute; reflexivity|].
  destruct (C2_empty_and_zero_values_fall_to_defaults
              sample_server import_world sample_vin world_10h00
              (after_request (decode_url sample_vin) world_10h00)
              sample_body sample_results sample_info
              (sample_answers sample_vin) eq_refl sample_decode)
    as [_ [_ [_ [_ [_ [Hbody [_ [_ [Hdrive _]]]]]]]]].
  split.
  - apply Hbody. apply sample_discards. now left.
  - apply Hdrive. apply sample_discards. now right.
Defined.

Lemma C3_witness :
  exists recs w',
    fetch_records flaky_server import_world [sample_vin; short_vin; other_vin]
      "bmw_vehicles" world_10h00 = (Ok recs, w') /\
    map (fun r => column r "vin") recs =
      [Some (JStr sample_vin); Some (JStr other_vin)] /\
    In (skip_line short_vin (Raise RequestException "connection refused")) (log w').
Proof.
  destruct (C3_vehicle_batch_isolates_failures flaky_server import_world
              [] world_10h00) as [_ [_ [_ H]]].
  edestruct (H sample_vin short_vin other_vin) as [Hfetch Hlog].
  - vm_compute. reflexivity.
  - vm_compute. reflexivity.
  - vm_compute. reflexivity.
  - eexists. eexists. split; [exact Hfetch|].
    split; [vm_compute; reflexivity | exact Hlog].
Defined.

Lemma C5_witness :
  (answers no_year_server world_10h00 (decode_url sample_vin) no_year_body /\
   project_results no_year_body = Ok [(JStr "Model", JStr "X5")] /\
   exists info,
     decode_bmw_vin no_year_server import_world sample_vin world_10h00 =
       (Ok info, after_request (decode_url sample_vin) world_10h00) /\
     model_year info = 0%Z) /\
  (answers bad_year_server world_10h00 (decode_url sample_vin) bad_year_body /\
   project_results bad_year_body =
     Ok [(JStr "Model", JStr "X5"); (JStr "ModelYear", JStr "20x0")] /\
   exists e,
     Py.int (JStr "20x0") = Err e /\
     exn_cls e = ValueError /\
     decode_bmw_vin bad_year_server import_world sample_vin world_10h00 =
       (Err e, after_log ("Unexpected error: " ++ exn_msg e)
                 (after_request (decode_url sample_vin) world_10h00))).
Proof.
  assert (Hno : answers no_year_server world_10h00 (decode_url sample_vin)
                  no_year_body) by (exists 200%Z; split; reflexivity).
  split.
  - split; [exact Hno|]. split; [reflexivity|].
    destruct (C5_model_year_default_and_conversion_failure
                no_year_server import_world sample_vin world_10h00
                no_year_body [(JStr "Model", JStr "X5")] Hno eq_refl)
      as [Habsent _].
    destruct (Habsent eq_refl) as [_ [_ Hreturns]].
    exact (Hreturns "X5" "C"%char eq_refl eq_refl).
  - split; [apply bad_year_answers|]. split; [reflexivity|].
    destruct (C5_model_year_default_and_conversion_failure
                bad_year_server import_world sample_vin world_10h00
                bad_year_body
                [(JStr "Model", JStr "X5"); (JStr "ModelYear", JStr "20x0")]
                (bad_year_answers sample_vin) eq_refl) as [_ Hpresent].
    destruct (Py.int (JStr "20x0")) as [n|e] eqn:Hint;
      [vm_compute in Hint; discriminate Hint|].
    destruct (Hpresent (JStr "20x0") e eq_refl Hint)
      as [_ [_ [Hclass [_ Hraise]]]].
    exists e. split; [reflexivity|]. split; [exact (Hclass "20x0" eq_refl)|].
    exact (Hraise "X5" eq_refl).
Defined.

Lemma C6_witness :
  answers recalls_server world_10h00 (recalls_url sample_vin) recalls_body /\
  Py.get_method recalls_body "Results" (JArr []) =
    Ok (JArr (map JObj sample_recalls)) /\
  fetch_records recalls_server import_world [sample_vin] "bmw_recalls"
    world_10h00 =
    (Ok (map (recall_row sample_vin) sample_recalls),
     after_request (recalls_url sample_vin) world_10h00).
Proof.
  assert (Hans : answers recalls_server world_10h00 (recalls_url sample_vin)
                   recalls_body) by (exists 200%Z; split; reflexivity).
  split; [exact Hans|]. split; [reflexivity|].
  destruct (C6_one_recall_record_per_entry recalls_server import_world
              sample_vin [] world_10h00 recalls_body sample_recalls
              Hans eq_refl) as [later_recs [w' [Hrest [Hall _]]]].
  vm_compute in Hrest. injection Hrest as <- <-.
  rewrite Hall. vm_compute. reflexivity.
Defined.

Lemma C8_witness :
  String.length short_vin <> 17 /\
  _validate_bmw_vin short_vin =
    Err (Raise ValueError "VIN must be 17 characters long") /\
  String.length foreign_vin = 17 /\
  ~ In (String.substring 0 3 foreign_vin) ["WBA"; "WBS"; "WBY"; "4US"] /\
  _validate_bmw_vin foreign_vin =
    Err (Raise ValueError "Not a valid BMW VIN prefix") /\
  _validate_bmw_vin sample_vin <> Ok true.
Proof.
  assert (Hpre : ~ In (String.substring 0 3 foreign_vin)
                      ["WBA"; "WBS"; "WBY"; "4US"]).
  { vm_compute. intros [H|[H|[H|[H|H]]]]; try discriminate H. exact H. }
  split; [vm_compute; discriminate|].
  split.
  { apply (C8_validator_rejects_before_any_request sample_server import_world
             short_vin world_10h00). vm_compute. discriminate. }
  split; [reflexivity|].
  split; [exact Hpre|].
  split.
  { apply (C8_validator_rejects_before_any_request sample_server import_world
             foreign_vin world_10h00); [reflexivity | exact Hpre]. }
  vm_compute. discriminate.
Defined.

Lemma C9_witness :
  String.length short_vin < 12 /\
  answers sample_server world_10h00 (decode_url short_vin) sample_body /\
  Forall well_formed_pair sample_results /\
  decode_bmw_vin sample_server import_world short_vin world_10h00 =
    (Err (Raise IndexError "string index out of range"),
     after_log "Unexpected error: string index out of range"
       (after_request (decode_url short_vin) world_10h00)).
Proof.
  assert (Hlen : String.length short_vin < 12) by (vm_compute; lia).
  split; [exact Hlen|].
  split; [apply sample_answers|].
  split; [apply sample_results_well_formed|].
  destruct (C9_short_vin_never_decodes sample_server import_world short_vin
              world_10h00 Hlen) as [_ H].
  apply (H sample_body sample_results (sample_answers short_vin) eq_refl
           sample_results_well_formed).
  intros results Hp. vm_compute in Hp. injection Hp as <-.
  exists 2020%Z. reflexivity.
Defined.

(** Claim C9 as stated fails: for the eleven-character VIN and a
    successful answer of well-formed pairs whose model year is the text
    20x0, the decode raises the conversion failure of [int], which is a
    [ValueError], and the plant lookup is never reached. *)
Lemma C9_counterexample :
  String.length short_vin < 12 /\
  answers bad_year_server world_10h00 (decode_url short_vin) bad_year_body /\
  Py.getitem bad_year_body "Results" = Ok (JArr bad_year_results) /\
  Forall well_formed_pair bad_year_results /\
  exists e w',
    decode_bmw_vin bad_year_server import_world short_vin world_10h00
      = (Err e, w') /\
    exn_cls e = ValueError /\
    exn_cls e <> IndexError.
Proof.
  split; [vm_compute; lia|].
  split; [apply bad_year_answers|].
  split; [reflexivity|].
  split.
  { unfold bad_year_results. repeat (constructor; [apply pair_of_well_formed|]).
    constructor. }
  eexists. eexists. split; [vm_compute; reflexivity|].
  split; [reflexivity | discriminate].
Qed.

(** [int] on text, on a few literals; 160 is the no-break space, 133 the
    next-line character, 28 a separator that [int] does not skip. *)
Example int_examples :
  Py.int_of_str "2020" = Some 2020%Z /\
  Py.int_of_str " -12 " = Some (-12)%Z /\
  Py.int_of_str "1_000" = Some 1000%Z /\
  Py.int_of_str "1__0" = None /\
  Py.int_of_str "20x" = None /\
  Py.int_of_str EmptyString = None /\
  Py.int_of_str "+" = None /\
  Py.int_of_str (String (ascii_of_nat 160) "2020") = Some 2020%Z /\
  Py.int_of_str ("2020" ++ String (ascii_of_nat 133) EmptyString) = Some 2020%Z /\
  Py.int_of_str (String (ascii_of_nat 28) "2020") = None.
Proof. repeat split; vm_compute; reflexivity. Qed.

(** A literal of more than 4300 digits is refused. *)
Lemma int_of_str_digit_limit (s : string) :
  (Py.int_max_str_digits < Py.count_digits s)%N -> Py.int_of_str s = None.
Proof.
  intros H. unfold Py.int_of_str. apply N.ltb_lt in H. now rewrite H.
Qed.

(* ================================================================= *)
(** ** Instances of the further properties *)

Lemma X4_witness :
  sample_server (requests_made world_10h00) (decode_url sample_vin)
    = sample_server
        (requests_made
           (later "2024-05-01T10:05:00"
              (after_request (decode_url sample_vin) world_10h00)))
        (decode_url sample_vin) /\
  fst (decode_bmw_vin sample_server import_world sample_vin world_10h00)
    = fst (decode_bmw_vin sample_server import_world sample_vin
             (later "2024-05-01T10:05:00"
                (after_request (decode_url sample_vin) world_10h00))).
Proof.
  split; [reflexivity|].
  apply (X4_decode_repeatable sample_server import_world). reflexivity.
Defined.

Lemma X5_witness :
  12 <= String.length other_vin /\
  exists info,
    decode_bmw_vin sample_server import_world other_vin world_10h00 =
      (Ok info, after_request (decode_url other_vin) world_10h00) /\
    vin info = other_vin.
Proof.
  assert (Hlen : 12 <= String.length other_vin) by (vm_compute; lia).
  split; [exact Hlen|].
  apply (X5_decode_succeeds_on_well_formed_answer sample_server import_world
           other_vin world_10h00 sample_body sample_results Hlen
           (sample_answers other_vin) eq_refl sample_results_well_formed).
  intros results Hp. vm_compute in Hp. injection Hp as <-.
  exists 2020%Z. reflexivity.
Defined.

Lemma repeated_post_silent :
  forall it,
    In it [pair_of "Model" EmptyString; pair_of "ModelYear" "2020"] ->
    silent_for "Model" it.
Proof.
  intros it Hin v Hv Hk Hvar.
  destruct Hin as [<-|[<-|[]]]; vm_compute in Hv, Hvar;
    injection Hv as <-; discriminate.
Qed.

Lemma X6_witness :
  project_results repeated_body =
    Ok [(JStr "Model", JStr "X3"); (JStr "ModelYear", JStr "2020")] /\
  Py.dict_find [(JStr "Model", JStr "X3"); (JStr "ModelYear", JStr "2020")]
    (JStr "Model") = Some (JStr "X3").
Proof.
  split; [reflexivity|].
  apply (X6_last_kept_pair_wins repeated_body "Model"
           [pair_of "Model" "X5"]
           [pair_of "Model" EmptyString; pair_of "ModelYear" "2020"]
           (pair_of "Model" "X3") (JStr "X3")
           [(JStr "Model", JStr "X3"); (JStr "ModelYear", JStr "2020")]
           eq_refl eq_refl eq_refl eq_refl eq_refl repeated_post_silent).
Defined.

Lemma X7_witness :
  exists info w',
    decode_bmw_vin repeated_server import_world sample_vin world_10h00
      = (Ok info, w') /\
    model_name info = JStr "X3" /\
    series info = SERIES_3.
Proof.
  assert (H : exists info w',
             decode_bmw_vin repeated_server import_world sample_vin world_10h00
               = (Ok info, w'))
    by (eexists; eexists; vm_compute; reflexivity).
  destruct H as [info [w' H]]. exists info, w'. split; [exact H|].
  assert (Hans : answers repeated_server world_10h00 (decode_url sample_vin)
                   repeated_body) by (exists 200%Z; split; reflexivity).
  destruct (X7_record_fields_carry_answer_values repeated_server import_world
              sample_vin world_10h00 w' repeated_body info "Model"
              [pair_of "Model" "X5"]
              [pair_of "Model" EmptyString; pair_of "ModelYear" "2020"]
              (pair_of "Model" "X3") (JStr "X3")
              Hans eq_refl H eq_refl eq_refl eq_refl repeated_post_silent)
    as [Hmodel _].
  destruct (Hmodel eq_refl) as [Hname Hseries].
  split; [exact Hname|].
  change (Ok SERIES_3 = Ok (series info)) in Hseries. congruence.
Defined.

Lemma flaky_batch :
  exists recs w',
    fetch_records flaky_server import_world [sample_vin; short_vin; other_vin]
      "bmw_vehicles" world_10h00 = (Ok recs, w').
Proof. eexists. eexists. vm_compute. reflexivity. Qed.

Lemma X8_witness :
  exists recs w',
    fetch_records flaky_server import_world [sample_vin; short_vin; other_vin]
      "bmw_vehicles" world_10h00 = (Ok recs, w') /\
    Forall (fun r => map fst r = map fst (get_columns "bmw_vehicles")) recs.
Proof.
  destruct flaky_batch as [recs [w' H]]. exists recs, w'.
  split; [exact H|].
  exact (X8_records_have_the_declared_columns flaky_server import_world
           _ _ _ _ _ H).
Defined.

Lemma X9_witness :
  exists recs w',
    fetch_records flaky_server import_world [sample_vin; short_vin; other_vin]
      "bmw_vehicles" world_10h00 = (Ok recs, w') /\
    Forall (fun r =>
              exists v, In v [sample_vin; short_vin; other_vin] /\
                        column r "vin" = Some (JStr v)) recs.
Proof.
  destruct flaky_batch as [recs [w' H]]. exists recs, w'.
  split; [exact H|].
  destruct (X9_primary_keys_are_declared_and_present flaky_server import_world
              _ _ _ _ _ H) as [_ Hall].
  eapply Forall_impl; [|exact Hall]. intros r [Hr _]. exact Hr.
Defined.


Lemma X11_witness :
  exists recs w',
    fetch_records flaky_server import_world [sample_vin; short_vin; other_vin]
      "bmw_vehicles" world_10h00 = (Ok recs, w') /\
    List.length (log w') =
      List.length (log world_10h00) + 2 * (3 - List.length recs).
Proof.
  destruct flaky_batch as [recs [w' H]]. exists recs, w'.
  split; [exact H|].
  destruct (X11_vehicle_failures_are_all_logged flaky_server import_world
              _ _ _ _ H) as [_ [Hlog _]].
  exact Hlog.
Defined.

Lemma X13_witness :
  answers mixed_recalls_server world_10h00 (recalls_url sample_vin)
    mixed_recalls_body /\
  exists w',
    fetch_records mixed_recalls_server import_world [sample_vin] "bmw_recalls"
      world_10h00 =
    (Ok [recall_row sample_vin [("CampaignNumber", JStr "20V123")]], w').
Proof.
  assert (Hans : answers mixed_recalls_server world_10h00
                   (recalls_url sample_vin) mixed_recalls_body)
    by (exists 200%Z; split; reflexivity).
  split; [exact Hans|].
  destruct (X13_recalls_before_a_bad_entry_are_kept mixed_recalls_server
              import_world sample_vin [] world_10h00 mixed_recalls_body
              [[("CampaignNumber", JStr "20V123")]] (JStr "withdrawn")
              [JObj [("CampaignNumber", JStr "21V456")]]
              Hans eq_refl)
    as [e [later_recs [w' [_ [Hrest Hall]]]]].
  { intros entry; discriminate. }
  exists w'. rewrite Hall.
  unfold fetch_records in Hrest. cbn [String.eqb Ascii.eqb Bool.eqb] in Hrest.
  cbn [recalls_loop] in Hrest. unfold ret in Hrest.
  injection Hrest as <- _. reflexivity.
Defined.

Lemma X16_witness :
  exists e w1,
    decode_bmw_vin dead_server import_world "5UXCW2C09L9C15882" world_10h00
      = (Err e, w1) /\
    exists w',
      update dead_server import_world sample_repr JNull (JObj []) world_10h00
        = (Ok [], w').
Proof.
  assert (H : exists e w1,
             decode_bmw_vin dead_server import_world "5UXCW2C09L9C15882"
               world_10h00 = (Err e, w1))
    by (eexists; eexists; vm_compute; reflexivity).
  destruct H as [e [w1 H]]. exists e, w1. split; [exact H|].
  destruct (X16_update_yields_nothing_without_connection dead_server
              import_world sample_repr JNull (JObj []) _ _ _ H)
    as [w' [Hup _]].
  exists w'. exact Hup.
Defined.

Lemma X17_witness :
  exists info w1,
    decode_bmw_vin sample_server import_world "5UXCW2C09L9C15882" world_10h00
      = (Ok info, w1) /\
    exists recs w',
      update sample_server import_world sample_repr JNull (JObj []) world_10h00
        = (Ok (map (Upsert "bmw_vehicles") (firstn 2 recs)
               ++ [Checkpoint (JObj [])])%list, w') /\
      requests_made w' =
        [decode_url "5UXCW2C09L9C15882"; decode_url "5UXCW2C09L9C15882";
         decode_url "WBAHF3C03NWX42344"].
Proof.
  assert (H : exists info w1,
             decode_bmw_vin sample_server import_world "5UXCW2C09L9C15882"
               world_10h00 = (Ok info, w1))
    by (eexists; eexists; vm_compute; reflexivity).
  destruct H as [info [w1 H]]. exists info, w1. split; [exact H|].
  destruct (X17_update_upserts_then_checkpoints sample_server import_world
              sample_repr JNull (JObj []) _ _ _ H)
    as [recs [w2 [w' [_ [Hup [_ [_ Hreq]]]]]]].
  exists recs, w'. split; [exact Hup | exact Hreq].
Defined.
